(** * Export-schedule route handlers: a shallow embedding

    Source: [src/app/api/admin/users/exports/schedule/route.ts], the four
    handlers [GET], [POST], [PATCH] and [DELETE] of the export-schedule
    API, and the recurrence rule of the specification (§4.1).

    Conventions of the embedding.
    - A JavaScript string is a [string]; its characters are the code units
      0..255.  A JavaScript number that the handlers only count with is a
      [nat]; [dayOfWeek], [dayOfMonth] and timestamps are [Z].
    - A JSON field that may be absent is an [option]; [None] is
      [undefined].  Fields carry the type the handler expects of them.
    - The two Prisma tables are lists of rows.  A Prisma call is a step of
      a small state monad over the two tables that can throw and that
      records each query in a journal, so that the order of the queries of
      a handler can be stated.
    - The collaborators that the file imports or finds in the global scope
      ([rateLimit], [hasPermission], [new Date]) are the fields of an
      environment [Env].  [crypto.getRandomUUID] is not one of them: the
      file imports no [crypto], and the global [crypto] of the runtime has
      [randomUUID] and [getRandomValues] and no [getRandomUUID], so that
      the call of line 128 throws. *)

From Stdlib Require Import String Ascii List ZArith Bool Arith Lia.
From Stdlib Require Import DecimalString.
From Stdlib Require Import Sorted Permutation.
Import ListNotations.

Local Open Scope string_scope.
Local Open Scope list_scope.

Set Implicit Arguments.

(** ** Regular expressions over code units

    The handler validates addresses with a regular-expression literal.
    The matcher below decides membership by Brzozowski derivatives; since
    the literal is anchored at both ends, [test] is whole-string
    membership. *)

Module Regex.

Inductive regex : Type :=
| Void : regex
| Eps : regex
| Class : (ascii -> bool) -> regex
| Cat : regex -> regex -> regex
| Alt : regex -> regex -> regex
| Star : regex -> regex.

(** [r+] *)
Definition Plus (r : regex) : regex := Cat r (Star r).

(** a literal character *)
Definition Chr (c : ascii) : regex := Class (Ascii.eqb c).

Fixpoint nullable (r : regex) : bool :=
  match r with
  | Void => false
  | Eps => true
  | Class _ => false
  | Cat r1 r2 => nullable r1 && nullable r2
  | Alt r1 r2 => nullable r1 || nullable r2
  | Star _ => true
  end.

Fixpoint deriv (c : ascii) (r : regex) : regex :=
  match r with
  | Void => Void
  | Eps => Void
  | Class p => if p c then Eps else Void
  | Cat r1 r2 =>
      if nullable r1
      then Alt (Cat (deriv c r1) r2) (deriv c r2)
      else Cat (deriv c r1) r2
  | Alt r1 r2 => Alt (deriv c r1) (deriv c r2)
  | Star r1 => Cat (deriv c r1) (Star r1)
  end.

Fixpoint matches (r : regex) (s : string) : bool :=
  match s with
  | EmptyString => nullable r
  | String c s' => matches (deriv c r) s'
  end.

(** The language of a regular expression. *)
Inductive lang : regex -> string -> Prop :=
| L_eps : lang Eps ""
| L_class p c : p c = true -> lang (Class p) (String c "")
| L_cat r1 r2 s1 s2 : lang r1 s1 -> lang r2 s2 -> lang (Cat r1 r2) (s1 ++ s2)
| L_alt_l r1 r2 s : lang r1 s -> lang (Alt r1 r2) s
| L_alt_r r1 r2 s : lang r2 s -> lang (Alt r1 r2) s
| L_star_nil r : lang (Star r) ""
| L_star_cons r s1 s2 :
    lang r s1 -> lang (Star r) s2 -> lang (Star r) (s1 ++ s2).

End Regex.

(** ** Strings as JavaScript sees them *)

(** [\s] on the code units 0..255: TAB, LF, VT, FF, CR, SPACE and NBSP. *)
Definition is_space (c : ascii) : bool :=
  let n := nat_of_ascii c in
  (Nat.leb 9 n && Nat.leb n 13) || Nat.eqb n 32 || Nat.eqb n 160.

(** The class [[^\s@]]. *)
Definition not_space_at (c : ascii) : bool :=
  negb (is_space c) && negb (Ascii.eqb c "@").

(** [const emailRegex = /^[^\s@]+@[^\s@]+\.[^\s@]+$/] *)
Definition emailRegex : Regex.regex :=
  Regex.Cat (Regex.Plus (Regex.Class not_space_at))
    (Regex.Cat (Regex.Chr "@")
       (Regex.Cat (Regex.Plus (Regex.Class not_space_at))
          (Regex.Cat (Regex.Chr ".")
             (Regex.Plus (Regex.Class not_space_at))))).

(** [emailRegex.test(email)] *)
Definition emailRegex_test (email : string) : bool :=
  Regex.matches emailRegex email.

(** [s.split(sep)] for a one-character separator: the pieces between the
    separators, in order; never the empty array. *)
Fixpoint split (sep : ascii) (s : string) : list string :=
  match s with
  | EmptyString => [EmptyString]
  | String c s' =>
      if Ascii.eqb c sep then EmptyString :: split sep s'
      else match split sep s' with
           | [] => [String c EmptyString]
           | piece :: pieces => String c piece :: pieces
           end
  end.

(** [!!s] for a possibly absent string: absent and [""] are falsy. *)
Definition truthy_string (s : option string) : bool :=
  match s with
  | Some s' => negb (String.eqb s' "")
  | None => false
  end.

(** [n || null] for a possibly absent number: absent and [0] give null. *)
Definition number_or_null (n : option Z) : option Z :=
  match n with
  | Some z => if Z.eqb z 0 then None else Some z
  | None => None
  end.

(** [s || null] for a possibly absent string. *)
Definition string_or_null (s : option string) : option string :=
  if truthy_string s then s else None.

(** [s || d] for a possibly absent string. *)
Definition string_or (s : option string) (d : string) : string :=
  match s with
  | Some s' => if String.eqb s' "" then d else s'
  | None => d
  end.

(** [arr.includes(x)] on strings. *)
Definition includes (arr : list string) (x : string) : bool :=
  existsb (String.eqb x) arr.

(** The decimal numeral of a count, as a template literal prints it. *)
Definition string_of_nat (n : nat) : string :=
  NilZero.string_of_uint (Nat.to_uint n).

(** ** Data model *)

(** A row of the [exportSchedule] table, with the columns that
    [prisma.exportSchedule.create] writes. *)
Module ExportSchedule.
Record t : Type := mk {
  id : string;
  name : string;
  description : option string;
  frequency : string;
  format : string;
  recipients : list string;
  dayOfWeek : option Z;
  dayOfMonth : option Z;
  time : string;
  emailSubject : option string;
  emailBody : option string;
  filterPresetId : option string;
  isActive : bool;
  tenantId : string;
  userId : string;
  createdAt : Z;
  updatedAt : Z
}.

Definition set_isActive (b : bool) (s : t) : t :=
  mk (id s) (name s) (description s) (frequency s) (format s)
     (recipients s) (dayOfWeek s) (dayOfMonth s) (time s)
     (emailSubject s) (emailBody s) (filterPresetId s) b
     (tenantId s) (userId s) (createdAt s) (updatedAt s).
End ExportSchedule.

(** Modelled from the spec: the columns of the [exportScheduleExecution]
    table (§3); the handlers only read [scheduleId]. *)
Module ExportScheduleExecution.
Inductive status_t : Type := pending | succeeded | failed.

Record t : Type := mk {
  id : string;
  scheduleId : string;
  status : status_t;
  startedAt : Z;
  completedAt : option Z;
  errorDetail : option string;
  outputFormat : string
}.
End ExportScheduleExecution.

(** The two tables. *)
Record Db : Type := mkDb {
  exportSchedule : list ExportSchedule.t;
  exportScheduleExecution : list ExportScheduleExecution.t
}.

(** The tenant context that [requireTenantContext] hands to a handler. *)
Module Context.
Record t : Type := mk { tenantId : string; userId : string }.
End Context.

(** The JSON body of a [POST], as destructured by the handler. *)
Module ScheduleInput.
Record t : Type := mk {
  name : option string;
  description : option string;
  frequency : option string;
  format : option string;
  recipients : option (list string);
  dayOfWeek : option Z;
  dayOfMonth : option Z;
  time : option string;
  emailSubject : option string;
  emailBody : option string;
  filterPresetId : option string;
  isActive : option bool
}.

(** The same body with another [dayOfWeek], or with none. *)
Definition set_dayOfWeek (d : option Z) (body : t) : t :=
  mk (name body) (description body) (frequency body) (format body)
     (recipients body) d (dayOfMonth body) (time body)
     (emailSubject body) (emailBody body) (filterPresetId body)
     (isActive body).
End ScheduleInput.

(** The JSON body of a [PATCH]; [scheduleIds] is [Some] for an array. *)
Module PatchInput.
Record t : Type := mk {
  action : option string;
  scheduleIds : option (list string)
}.
End PatchInput.

(** What a handler reads of a request: the [x-forwarded-for] header, the
    parsed body ([None] when [request.json()] throws) and the [ids] query
    parameter. *)
Module NextRequest.
Record t (Body : Type) : Type := mk {
  x_forwarded_for : option string;
  json : option Body;
  ids : option string
}.
End NextRequest.

(** The responses of the four handlers. *)
Module NextResponse.
Inductive payload : Type :=
| Error (error : string)
| Schedules (schedules : list (ExportSchedule.t * nat))
| Created (schedule : ExportSchedule.t) (message : string)
| Message (message : string)
| Deleted (deletedCount : nat) (message : string).

Record t : Type := mk { status : nat; body : payload }.

(** [NextResponse.json(body)] answers 200. *)
Definition json (b : payload) : t := mk 200 b.
(** [NextResponse.json({ error }, { status })] *)
Definition error (msg : string) (st : nat) : t := mk st (Error msg).
End NextResponse.

(** The collaborators of a request. *)
Record Env : Type := mkEnv {
  (** [(await rateLimit(identifier)).success] *)
  rateLimit : string -> bool;
  (** [await hasPermission(userId, capability)] *)
  hasPermission : string -> string -> bool;
  (** the value of the k-th [new Date()] of the request *)
  newDate : nat -> Z
}.

(** The update of a Boolean column that a call passes as [data]: the
    client takes a value or [{ set: value }]; [{ not: value }] is the
    syntax of a filter, which the client refuses in the place of an
    update. *)
Module BoolFieldUpdate.
Inductive t : Type :=
| set (b : bool)
| not_ (b : bool).
End BoolFieldUpdate.

(** ** The Prisma monad *)

Module Prisma.

(** The calls made on the Prisma client. *)
Inductive Query : Type :=
| exportSchedule_findMany (tenantId : string)
| exportSchedule_count (tenantId : string)
| exportSchedule_create (row : ExportSchedule.t)
| exportSchedule_updateMany (ids : list string)
    (isActive : BoolFieldUpdate.t)
| exportScheduleExecution_deleteMany (scheduleIds : list string)
| exportSchedule_deleteMany (ids : list string).

Inductive Exception : Type :=
| SyntaxError            (* [request.json()] on a malformed body *)
| TypeError              (* a call of something that is not a function *)
| ClientValidationError. (* the client refuses the arguments of a call *)

Inductive Outcome (A : Type) : Type :=
| Returned (a : A)
| Thrown (e : Exception).
Arguments Thrown {A} e.

Record Run (A : Type) : Type := mkRun {
  outcome : Outcome A;
  store : Db;
  journal : list Query
}.

Definition M (A : Type) : Type := Db -> Run A.

Definition ret {A} (a : A) : M A :=
  fun db => mkRun (Returned a) db [].

Definition throw {A} (e : Exception) : M A :=
  fun db => mkRun (Thrown e) db [].

Definition bind {A B} (m : M A) (f : A -> M B) : M B :=
  fun db =>
    let r := m db in
    match outcome r with
    | Returned a =>
        let r' := f a (store r) in
        mkRun (outcome r') (store r') (journal r ++ journal r')
    | Thrown e => mkRun (Thrown e) (store r) (journal r)
    end.

(** [try { m } catch (error) { h }] *)
Definition try_catch {A} (m : M A) (h : M A) : M A :=
  fun db =>
    let r := m db in
    match outcome r with
    | Returned _ => r
    | Thrown _ =>
        let r' := h (store r) in
        mkRun (outcome r') (store r') (journal r ++ journal r')
    end.

(** A call on the client: journalled, then run on the tables. *)
Definition call {A} (q : Query) (f : Db -> Outcome A * Db) : M A :=
  fun db => let '(o, db') := f db in mkRun o db' [q].

End Prisma.

Notation "x <- m ;; k" := (Prisma.bind m (fun x => k))
  (at level 61, m at next level, right associativity).
Notation "m ;;; k" := (Prisma.bind m (fun _ => k))
  (at level 61, right associativity).

(** ** The Prisma client calls of the handlers *)

(** [where: { id: { in: ids } }] and [where: { scheduleId: { in: ids } }] *)
Definition id_in (ids : list string) (i : string) : bool :=
  existsb (String.eqb i) ids.

(** [where: { tenantId }] *)
Definition of_tenant (tenantId : string) (s : ExportSchedule.t) : bool :=
  String.eqb (ExportSchedule.tenantId s) tenantId.

(** [orderBy: { createdAt: 'desc' }], rows of equal [createdAt] kept in
    table order. *)
Fixpoint insert_desc (s : ExportSchedule.t) (l : list ExportSchedule.t)
  : list ExportSchedule.t :=
  match l with
  | [] => [s]
  | x :: l' =>
      if Z.leb (ExportSchedule.createdAt x) (ExportSchedule.createdAt s)
      then s :: x :: l'
      else x :: insert_desc s l'
  end.

Definition orderBy_createdAt_desc (l : list ExportSchedule.t)
  : list ExportSchedule.t :=
  fold_right insert_desc [] l.

(** [_count.executions] of a schedule. *)
Definition count_executions (db : Db) (s : ExportSchedule.t) : nat :=
  length (filter
            (fun e => String.eqb (ExportScheduleExecution.scheduleId e)
                                 (ExportSchedule.id s))
            (exportScheduleExecution db)).

Definition count_of_tenant (tenantId : string) (db : Db) : nat :=
  length (filter (of_tenant tenantId) (exportSchedule db)).

Definition schedule_findMany (tenantId : string)
  : Prisma.M (list (ExportSchedule.t * nat)) :=
  Prisma.call (Prisma.exportSchedule_findMany tenantId)
    (fun db =>
       (Prisma.Returned
          (map (fun s => (s, count_executions db s))
               (orderBy_createdAt_desc
                  (filter (of_tenant tenantId) (exportSchedule db)))),
        db)).

Definition schedule_count (tenantId : string) : Prisma.M nat :=
  Prisma.call (Prisma.exportSchedule_count tenantId)
    (fun db => (Prisma.Returned (count_of_tenant tenantId db), db)).

Definition schedule_create (row : ExportSchedule.t)
  : Prisma.M ExportSchedule.t :=
  Prisma.call (Prisma.exportSchedule_create row)
    (fun db =>
       (Prisma.Returned row,
        mkDb (exportSchedule db ++ [row]) (exportScheduleExecution db))).

Definition schedule_updateMany (ids : list string)
  (isActive : BoolFieldUpdate.t) : Prisma.M nat :=
  Prisma.call (Prisma.exportSchedule_updateMany ids isActive)
    (fun db =>
       match isActive with
       | BoolFieldUpdate.set b =>
           (Prisma.Returned
              (length (filter (fun s => id_in ids (ExportSchedule.id s))
                              (exportSchedule db))),
            mkDb (map (fun s =>
                         if id_in ids (ExportSchedule.id s)
                         then ExportSchedule.set_isActive b s else s)
                      (exportSchedule db))
                 (exportScheduleExecution db))
       | BoolFieldUpdate.not_ _ =>
           (Prisma.Thrown Prisma.ClientValidationError, db)
       end).

Definition execution_deleteMany (scheduleIds : list string) : Prisma.M nat :=
  Prisma.call (Prisma.exportScheduleExecution_deleteMany scheduleIds)
    (fun db =>
       let hit e := id_in scheduleIds (ExportScheduleExecution.scheduleId e) in
       (Prisma.Returned (length (filter hit (exportScheduleExecution db))),
        mkDb (exportSchedule db)
             (filter (fun e => negb (hit e)) (exportScheduleExecution db)))).

Definition schedule_deleteMany (ids : list string) : Prisma.M nat :=
  Prisma.call (Prisma.exportSchedule_deleteMany ids)
    (fun db =>
       let hit s := id_in ids (ExportSchedule.id s) in
       (Prisma.Returned (length (filter hit (exportSchedule db))),
        mkDb (filter (fun s => negb (hit s)) (exportSchedule db))
             (exportScheduleExecution db))).

(** [await request.json()] *)
Definition request_json {Body} (request : NextRequest.t Body)
  : Prisma.M Body :=
  match NextRequest.json request with
  | Some body => Prisma.ret body
  | None => Prisma.throw Prisma.SyntaxError
  end.

(** [crypto.getRandomUUID()]: [getRandomUUID] is not a function of the
    global [crypto], and calling it throws a [TypeError]. *)
Definition crypto_getRandomUUID : Prisma.M string :=
  Prisma.throw Prisma.TypeError.

(** The value of a variable that the handler has found truthy. *)
Definition the_string (s : option string) : string :=
  match s with Some s' => s' | None => "" end.

Definition the_array (a : option (list string)) : list string :=
  match a with Some l => l | None => [] end.

(** ** The handlers *)

(** [GET]: the schedules of the tenant, newest first, each with its number
    of executions. *)
Definition GET {Body} (env : Env) (context : Context.t)
  (request : NextRequest.t Body) : Prisma.M NextResponse.t :=
  Prisma.try_catch
    (let identifier :=
       string_or (NextRequest.x_forwarded_for request) "anonymous" in
     if negb (rateLimit env identifier) then
       Prisma.ret (NextResponse.error "Rate limit exceeded" 429)
     else if negb (hasPermission env (Context.userId context)
                     "admin:users:export") then
       Prisma.ret (NextResponse.error "Forbidden" 403)
     else
       schedules <- schedule_findMany (Context.tenantId context) ;;
       Prisma.ret (NextResponse.json (NextResponse.Schedules schedules)))
    (Prisma.ret (NextResponse.error "Failed to fetch export schedules" 500)).

(** [POST]: create a schedule. *)
Definition POST (env : Env) (context : Context.t)
  (request : NextRequest.t ScheduleInput.t) : Prisma.M NextResponse.t :=
  Prisma.try_catch
    (let identifier :=
       string_or (NextRequest.x_forwarded_for request) "anonymous" in
     if negb (rateLimit env identifier) then
       Prisma.ret (NextResponse.error "Rate limit exceeded" 429)
     else if negb (hasPermission env (Context.userId context)
                     "admin:users:export") then
       Prisma.ret (NextResponse.error "Forbidden" 403)
     else
       body <- request_json request ;;
       let name := ScheduleInput.name body in
       let description := ScheduleInput.description body in
       let frequency := ScheduleInput.frequency body in
       let format := ScheduleInput.format body in
       let recipients := ScheduleInput.recipients body in
       let dayOfWeek := ScheduleInput.dayOfWeek body in
       let dayOfMonth := ScheduleInput.dayOfMonth body in
       let time := ScheduleInput.time body in
       let emailSubject := ScheduleInput.emailSubject body in
       let emailBody := ScheduleInput.emailBody body in
       let filterPresetId := ScheduleInput.filterPresetId body in
       let isActive :=
         match ScheduleInput.isActive body with
         | Some b => b
         | None => true
         end in
       if negb (truthy_string name) || negb (truthy_string frequency)
          || negb (truthy_string format)
          || match recipients with
             | None => true
             | Some l => Nat.eqb (length l) 0
             end
       then
         Prisma.ret
           (NextResponse.error
              "Missing required fields: name, frequency, format, recipients"
              400)
       else if negb (includes ["csv"; "xlsx"; "json"; "pdf"]
                       (the_string format)) then
         Prisma.ret (NextResponse.error "Invalid export format" 400)
       else if existsb (fun email => negb (emailRegex_test email))
                 (the_array recipients) then
         Prisma.ret
           (NextResponse.error "One or more recipient emails are invalid" 400)
       else
         existingSchedules <- schedule_count (Context.tenantId context) ;;
         if Nat.leb 20 existingSchedules then
           Prisma.ret
             (NextResponse.error
                "Maximum number of export schedules (20) reached for this tenant"
                400)
         else
           uuid <- crypto_getRandomUUID ;;
           schedule <-
             schedule_create
               (ExportSchedule.mk
                  uuid
                  (the_string name)
                  description
                  (the_string frequency)
                  (the_string format)
                  (the_array recipients)
                  (number_or_null dayOfWeek)
                  (number_or_null dayOfMonth)
                  (string_or time "09:00")
                  emailSubject
                  emailBody
                  (string_or_null filterPresetId)
                  isActive
                  (Context.tenantId context)
                  (Context.userId context)
                  (newDate env 0)
                  (newDate env 1)) ;;
           Prisma.ret
             (NextResponse.json
                (NextResponse.Created schedule
                   "Export schedule created successfully")))
    (Prisma.ret (NextResponse.error "Failed to create export schedule" 500)).

(** [PATCH]: the bulk action [toggleActive]. *)
Definition PATCH (env : Env) (context : Context.t)
  (request : NextRequest.t PatchInput.t) : Prisma.M NextResponse.t :=
  Prisma.try_catch
    (let identifier :=
       string_or (NextRequest.x_forwarded_for request) "anonymous" in
     if negb (rateLimit env identifier) then
       Prisma.ret (NextResponse.error "Rate limit exceeded" 429)
     else if negb (hasPermission env (Context.userId context)
                     "admin:users:export") then
       Prisma.ret (NextResponse.error "Forbidden" 403)
     else
       body <- request_json request ;;
       let action := PatchInput.action body in
       let scheduleIds := PatchInput.scheduleIds body in
       match action, scheduleIds with
       | Some action', Some scheduleIds' =>
           if String.eqb action' "toggleActive" then
             schedule_updateMany scheduleIds' (BoolFieldUpdate.not_ true) ;;;
             Prisma.ret
               (NextResponse.json (NextResponse.Message "Schedules updated"))
           else Prisma.ret (NextResponse.error "Invalid action" 400)
       | _, _ => Prisma.ret (NextResponse.error "Invalid action" 400)
       end)
    (Prisma.ret (NextResponse.error "Failed to update export schedules" 500)).

(** [DELETE]: delete the schedules named by [?ids=id1,id2,...] and their
    executions. *)
Definition DELETE {Body} (env : Env) (context : Context.t)
  (request : NextRequest.t Body) : Prisma.M NextResponse.t :=
  Prisma.try_catch
    (let identifier :=
       string_or (NextRequest.x_forwarded_for request) "anonymous" in
     if negb (rateLimit env identifier) then
       Prisma.ret (NextResponse.error "Rate limit exceeded" 429)
     else if negb (hasPermission env (Context.userId context)
                     "admin:users:export") then
       Prisma.ret (NextResponse.error "Forbidden" 403)
     else
       let ids :=
         match NextRequest.ids request with
         | Some s => split "," s
         | None => []
         end in
       if Nat.eqb (length ids) 0 then
         Prisma.ret (NextResponse.error "No schedule IDs provided" 400)
       else
         execution_deleteMany ids ;;;
         deleted <- schedule_deleteMany ids ;;
         Prisma.ret
           (NextResponse.json
              (NextResponse.Deleted deleted
                 (string_of_nat deleted ++ " schedule(s) deleted"))))
    (Prisma.ret (NextResponse.error "Failed to delete export schedules" 500)).

(** ** Sequences of requests *)

(** A request to the route, with the collaborators and the tenant context
    it is served under. *)
Inductive Call : Type :=
| CallGET (env : Env) (context : Context.t) (request : NextRequest.t unit)
| CallPOST (env : Env) (context : Context.t)
    (request : NextRequest.t ScheduleInput.t)
| CallPATCH (env : Env) (context : Context.t)
    (request : NextRequest.t PatchInput.t)
| CallDELETE (env : Env) (context : Context.t) (request : NextRequest.t unit).

Definition serve (c : Call) : Prisma.M NextResponse.t :=
  match c with
  | CallGET env context request => GET env context request
  | CallPOST env context request => POST env context request
  | CallPATCH env context request => PATCH env context request
  | CallDELETE env context request => DELETE env context request
  end.

(** The tables after serving the calls one after the other. *)
Fixpoint serve_all (calls : list Call) (db : Db) : Db :=
  match calls with
  | [] => db
  | c :: calls' => serve_all calls' (Prisma.store (serve c db))
  end.

(** ** The vocabulary of the specification *)

(** The failure modes of §6, read off a response: the status decides, and
    among the answers 400 the message of the quota check. *)
Inductive Failure : Type :=
| RateLimited
| Forbidden
| ValidationError
| QuotaExceeded
| Internal.

Definition failure_of (r : NextResponse.t) : option Failure :=
  let st := NextResponse.status r in
  if Nat.eqb st 429 then Some RateLimited
  else if Nat.eqb st 403 then Some Forbidden
  else if Nat.eqb st 500 then Some Internal
  else if Nat.eqb st 400 then
    match NextResponse.body r with
    | NextResponse.Error msg =>
        if String.eqb msg
             "Maximum number of export schedules (20) reached for this tenant"
        then Some QuotaExceeded
        else Some ValidationError
    | _ => Some ValidationError
    end
  else None.

(** Admission: the rate limiter lets the request through and the subject
    holds the capability [admin:users:export]. *)
Definition rate_allowed {Body} (env : Env) (request : NextRequest.t Body)
  : bool :=
  rateLimit env (string_or (NextRequest.x_forwarded_for request) "anonymous").

Definition capable (env : Env) (context : Context.t) : bool :=
  hasPermission env (Context.userId context) "admin:users:export".

(** The three checks of [POST] on a body, in the order of the handler. *)
Definition missing_required (body : ScheduleInput.t) : bool :=
  negb (truthy_string (ScheduleInput.name body))
  || negb (truthy_string (ScheduleInput.frequency body))
  || negb (truthy_string (ScheduleInput.format body))
  || match ScheduleInput.recipients body with
     | None => true
     | Some l => Nat.eqb (length l) 0
     end.

Definition invalid_format (body : ScheduleInput.t) : bool :=
  negb (includes ["csv"; "xlsx"; "json"; "pdf"]
          (the_string (ScheduleInput.format body))).

Definition invalid_recipients (body : ScheduleInput.t) : bool :=
  existsb (fun email => negb (emailRegex_test email))
    (the_array (ScheduleInput.recipients body)).

Definition accepted (body : ScheduleInput.t) : bool :=
  negb (missing_required body) && negb (invalid_format body)
  && negb (invalid_recipients body).

(** The row that lines 127-145 of [POST] build for
    [prisma.exportSchedule.create], were they given an id. *)
Definition new_schedule (uuid : string) (env : Env) (context : Context.t)
  (body : ScheduleInput.t) : ExportSchedule.t :=
  ExportSchedule.mk
    uuid
    (the_string (ScheduleInput.name body))
    (ScheduleInput.description body)
    (the_string (ScheduleInput.frequency body))
    (the_string (ScheduleInput.format body))
    (the_array (ScheduleInput.recipients body))
    (number_or_null (ScheduleInput.dayOfWeek body))
    (number_or_null (ScheduleInput.dayOfMonth body))
    (string_or (ScheduleInput.time body) "09:00")
    (ScheduleInput.emailSubject body)
    (ScheduleInput.emailBody body)
    (string_or_null (ScheduleInput.filterPresetId body))
    (match ScheduleInput.isActive body with Some b => b | None => true end)
    (Context.tenantId context)
    (Context.userId context)
    (newDate env 0)
    (newDate env 1).

(** The answers of a denied admission. *)
Definition rate_limited : NextResponse.t :=
  NextResponse.error "Rate limit exceeded" 429.

Definition forbidden : NextResponse.t := NextResponse.error "Forbidden" 403.

(** A run that answers without a query and without a write. *)
Definition answers (r : NextResponse.t) (db : Db) : Prisma.Run NextResponse.t :=
  Prisma.mkRun (Prisma.Returned r) db [].

(** Referential integrity: every execution belongs to a stored schedule. *)
Definition no_dangling (db : Db) : Prop :=
  forall e, In e (exportScheduleExecution db) ->
    exists s, In s (exportSchedule db)
              /\ ExportSchedule.id s = ExportScheduleExecution.scheduleId e.

(** The answer of the quota check. *)
Definition quota_exceeded : NextResponse.t :=
  NextResponse.error
    "Maximum number of export schedules (20) reached for this tenant" 400.

(** The answer of the [catch] of [POST]. *)
Definition failed_to_create : NextResponse.t :=
  NextResponse.error "Failed to create export schedule" 500.

(** The quota of §3: at most 20 schedules per tenant. *)
Definition within_quota (db : Db) : Prop :=
  forall tenantId, count_of_tenant tenantId db <= 20.

(** The address syntax of §3, [<local>@<domain>.<tld>]: three non-empty
    parts, none of which holds white space or an [@]. *)
Fixpoint all_chars (p : ascii -> bool) (s : string) : bool :=
  match s with
  | EmptyString => true
  | String c s' => p c && all_chars p s'
  end.

Definition address_part (s : string) : Prop :=
  s <> "" /\ all_chars not_space_at s = true.

Definition well_formed_address (s : string) : Prop :=
  exists local domain tld,
    s = (local ++ "@" ++ domain ++ "." ++ tld)%string
    /\ address_part local /\ address_part domain /\ address_part tld.

(** The validation of §4.3 on a [create] input, for a given reading of
    what a valid frequency is. *)
Definition valid_input_with (frequency_ok : string -> Prop)
  (body : ScheduleInput.t) : Prop :=
  (exists n, ScheduleInput.name body = Some n /\ n <> "")
  /\ (exists f, ScheduleInput.frequency body = Some f /\ frequency_ok f)
  /\ (exists f, ScheduleInput.format body = Some f
                /\ In f ["csv"; "xlsx"; "json"; "pdf"])
  /\ (exists rs, ScheduleInput.recipients body = Some rs
                 /\ rs <> [] /\ Forall well_formed_address rs).

(** §4.3 as written: [frequency] is one of the three enumerated values. *)
Definition valid_input : ScheduleInput.t -> Prop :=
  valid_input_with (fun f => In f ["daily"; "weekly"; "monthly"]).

(** ** The recurrence engine *)

(** Modelled from the spec: the Recurrence Engine of §4.1,
    [nextFireTime(schedule, after)], is not among the sources.  A timestamp
    is a number of milliseconds since 1970-01-01T00:00Z, the zone is UTC,
    a day of the week is 0 for Sunday to 6 for Saturday, and a schedule
    whose recurrence fields are missing or malformed has no fire time. *)
Module Recurrence.
Local Open Scope Z_scope.

Definition ms_per_minute : Z := 60000.
Definition ms_per_day : Z := 86400000.

(** The day a timestamp falls in, counted from 1970-01-01. *)
Definition day_of (t : Z) : Z := t / ms_per_day.

(** The time of day of a timestamp, in milliseconds after midnight. *)
Definition timeOfDay_of (t : Z) : Z := t mod ms_per_day.

(** 1970-01-01 was a Thursday. *)
Definition dayOfWeek_of (t : Z) : Z := (day_of t + 4) mod 7.

Definition at_day (day timeOfDay : Z) : Z := day * ms_per_day + timeOfDay.

Definition digit (c : ascii) : option Z :=
  let n := Z.of_nat (nat_of_ascii c) in
  if (48 <=? n) && (n <=? 57) then Some (n - 48) else None.

(** [HH:MM] (24h) as milliseconds after midnight. *)
Definition parse_time (s : string) : option Z :=
  match s with
  | String h1 (String h2 (String colon (String m1 (String m2 EmptyString)))) =>
      match digit h1, digit h2, digit m1, digit m2 with
      | Some a, Some b, Some c, Some d =>
          let hh := 10 * a + b in
          let mm := 10 * c + d in
          if Ascii.eqb colon ":" && (hh <? 24) && (mm <? 60)
          then Some ((hh * 60 + mm) * ms_per_minute)
          else None
      | _, _, _, _ => None
      end
  | _ => None
  end.

(** The proleptic Gregorian calendar: days since 1970-01-01 of a date,
    and the date of a day. *)
Definition days_from_civil (y m d : Z) : Z :=
  let y' := if m <=? 2 then y - 1 else y in
  let era := y' / 400 in
  let yoe := y' - era * 400 in
  let doy := (153 * (if 2 <? m then m - 3 else m + 9) + 2) / 5 + d - 1 in
  let doe := yoe * 365 + yoe / 4 - yoe / 100 + doy in
  era * 146097 + doe - 719468.

Definition civil_from_days (z : Z) : Z * Z * Z :=
  let z' := z + 719468 in
  let era := z' / 146097 in
  let doe := z' - era * 146097 in
  let yoe := (doe - doe / 1460 + doe / 36524 - doe / 146096) / 365 in
  let doy := doe - (365 * yoe + yoe / 4 - yoe / 100) in
  let mp := (5 * doy + 2) / 153 in
  let d := doy - (153 * mp + 2) / 5 + 1 in
  let m := if mp <? 10 then mp + 3 else mp - 9 in
  ((if m <=? 2 then yoe + era * 400 + 1 else yoe + era * 400), m, d).

Definition is_leap (y : Z) : bool :=
  ((y mod 4 =? 0) && negb (y mod 100 =? 0)) || (y mod 400 =? 0).

Definition days_in_month (y m : Z) : Z :=
  if m =? 2 then (if is_leap y then 29 else 28)
  else if (m =? 4) || (m =? 6) || (m =? 9) || (m =? 11) then 30
  else 31.

(** [daily]: [after] rounded up to the next occurrence of [time]. *)
Definition next_daily (timeOfDay after : Z) : Z :=
  let c := at_day (day_of after) timeOfDay in
  if after <=? c then c else c + ms_per_day.

(** [weekly]: the next occurrence of [dayOfWeek] at [time] strictly
    after [after]. *)
Definition next_weekly (dayOfWeek timeOfDay after : Z) : Z :=
  let c :=
    at_day (day_of after + (dayOfWeek - dayOfWeek_of after) mod 7)
           timeOfDay in
  if after <? c then c else c + 7 * ms_per_day.

(** [monthly]: the next occurrence of [dayOfMonth] at [time], on the
    last day of a month that is shorter than [dayOfMonth]. *)
Definition monthly_in (y m dayOfMonth timeOfDay : Z) : Z :=
  at_day (days_from_civil y m (Z.min dayOfMonth (days_in_month y m)))
         timeOfDay.

Definition next_monthly (dayOfMonth timeOfDay after : Z) : Z :=
  let '(y, m, _) := civil_from_days (day_of after) in
  let c := monthly_in y m dayOfMonth timeOfDay in
  if after <=? c then c
  else if m =? 12 then monthly_in (y + 1) 1 dayOfMonth timeOfDay
  else monthly_in y (m + 1) dayOfMonth timeOfDay.

Definition in_range (lo hi : Z) (n : option Z) : option Z :=
  match n with
  | Some z => if (lo <=? z) && (z <=? hi) then Some z else None
  | None => None
  end.

Definition nextFireTime (schedule : ExportSchedule.t) (after : Z)
  : option Z :=
  match parse_time (ExportSchedule.time schedule) with
  | None => None
  | Some timeOfDay =>
      let frequency := ExportSchedule.frequency schedule in
      if String.eqb frequency "daily" then
        Some (next_daily timeOfDay after)
      else if String.eqb frequency "weekly" then
        match in_range 0 6 (ExportSchedule.dayOfWeek schedule) with
        | Some d => Some (next_weekly d timeOfDay after)
        | None => None
        end
      else if String.eqb frequency "monthly" then
        match in_range 1 31 (ExportSchedule.dayOfMonth schedule) with
        | Some d => Some (next_monthly d timeOfDay after)
        | None => None
        end
      else None
  end.

End Recurrence.

(** Admission of a call, as its handler decides it. *)
Definition call_rate_allowed (c : Call) : bool :=
  match c with
  | CallGET env _ request => rate_allowed env request
  | CallPOST env _ request => rate_allowed env request
  | CallPATCH env _ request => rate_allowed env request
  | CallDELETE env _ request => rate_allowed env request
  end.

Definition call_capable (c : Call) : bool :=
  match c with
  | CallGET env context _ => capable env context
  | CallPOST env context _ => capable env context
  | CallPATCH env context _ => capable env context
  | CallDELETE env context _ => capable env context
  end.

Definition admitted (c : Call) : bool :=
  call_rate_allowed c && call_capable c.

(** ** Sample requests and tables *)

Module Sample.
Local Open Scope Z_scope.

Definition uuid : string := "3b241101-e2bb-4255-8caf-4136c566a962".

Definition allow : Env :=
  mkEnv (fun _ => true) (fun _ _ => true)
    (fun k => 1700000000000 + Z.of_nat k).

(** The rate limiter denies; the subject holds the capability. *)
Definition limited : Env :=
  mkEnv (fun _ => false) (fun _ _ => true) (newDate allow).

(** The rate limiter allows; the subject lacks the capability. *)
Definition unprivileged : Env :=
  mkEnv (fun _ => true) (fun _ _ => false) (newDate allow).

Definition acme : Context.t := Context.mk "acme" "alice".
Definition globex : Context.t := Context.mk "globex" "bob".

Definition post (body : ScheduleInput.t) : NextRequest.t ScheduleInput.t :=
  NextRequest.mk (Some "203.0.113.7") (Some body) None.

Definition patch (ids : list string) : NextRequest.t PatchInput.t :=
  NextRequest.mk (Some "203.0.113.7")
    (Some (PatchInput.mk (Some "toggleActive") (Some ids))) None.

Definition delete (ids : string) : NextRequest.t unit :=
  NextRequest.mk (Some "203.0.113.7") None (Some ids).

(** A minimal body: the four required fields and nothing else. *)
Definition report (frequency : string) (recipients : list string)
  : ScheduleInput.t :=
  ScheduleInput.mk (Some "Users report") None (Some frequency)
    (Some "csv") (Some recipients) None None None None None None None.

Definition with_dayOfWeek (d : Z) (body : ScheduleInput.t)
  : ScheduleInput.t :=
  ScheduleInput.set_dayOfWeek (Some d) body.

Definition team : list string := ["ops@example.com"; "cfo@example.co.uk"].

(** A stored schedule. *)
Definition schedule (id tenantId : string) (isActive : bool)
  : ExportSchedule.t :=
  ExportSchedule.mk id "Users report" None "daily" "csv" team None None
    "09:00" None None None isActive tenantId "carol"
    1690000000000 1690000000000.

Definition execution (id scheduleId : string) : ExportScheduleExecution.t :=
  ExportScheduleExecution.mk id scheduleId
    ExportScheduleExecution.succeeded 1695000000000
    (Some 1695000001000) None "csv".

(** [n] schedules of a tenant, with the ids [s1] ... [sn]. *)
Definition schedules (n : nat) (tenantId : string) : list ExportSchedule.t :=
  map (fun k => schedule ("s" ++ string_of_nat k) tenantId true)
      (seq 1 n).

(** A weekly schedule: Thursdays at 09:00. *)
Definition thursdays : ExportSchedule.t :=
  ExportSchedule.mk "w1" "Weekly users report" None "weekly" "xlsx" team
    (Some 4) None "09:00" None None None true "acme" "carol"
    1690000000000 1690000000000.

(** Thursday 2024-02-29 at 09:00Z. *)
Definition a_thursday_at_nine : Z := 19782 * 86400000 + 32400000.

Definition empty : Db := mkDb [] [].

(** [n] schedules of [acme] and no execution. *)
Definition acme_with (n : nat) : Db := mkDb (schedules n "acme") [].

(** One inactive schedule of [globex], with one execution. *)
Definition globex_db : Db :=
  mkDb [schedule "g1" "globex" false] [execution "x1" "g1"].

(** Two schedules of [acme], with three executions. *)
Definition acme_db : Db :=
  mkDb [schedule "a1" "acme" true; schedule "a2" "acme" false]
       [execution "x1" "a1"; execution "x2" "a2"; execution "x3" "a1"].
End Sample.

(** ** Vocabulary of the listing, of the table and of the [ids] parameter *)

(** Newest first: no row is older than a row listed after it. *)
Definition newest_first (l : list ExportSchedule.t) : Prop :=
  StronglySorted
    (fun a b =>
       (ExportSchedule.createdAt b <= ExportSchedule.createdAt a)%Z) l.

(** A string without a comma. *)
Definition comma_free (s : string) : bool :=
  all_chars (fun c => negb (Ascii.eqb c ",")) s.

(** The number of occurrences of a character. *)
Fixpoint count_char (c : ascii) (s : string) : nat :=
  match s with
  | EmptyString => 0
  | String c' s' => (if Ascii.eqb c' c then 1 else 0) + count_char c s'
  end.

(** What the checks and the defaults of [POST] make of a row. *)
Definition row_checked (s : ExportSchedule.t) : Prop :=
  ExportSchedule.name s <> ""
  /\ ExportSchedule.frequency s <> ""
  /\ In (ExportSchedule.format s) ["csv"; "xlsx"; "json"; "pdf"]
  /\ ExportSchedule.recipients s <> []
  /\ Forall well_formed_address (ExportSchedule.recipients s)
  /\ ExportSchedule.time s <> ""
  /\ ExportSchedule.dayOfWeek s <> Some 0%Z
  /\ ExportSchedule.dayOfMonth s <> Some 0%Z
  /\ ExportSchedule.filterPresetId s <> Some "".

(** ** The CSV export of the users page

    Source: [handleExport] of [src/app/admin/users/EnterpriseUsersPage.tsx],
    the construction of [csvContent] (lines 119-140).  The formatting of a
    date, [toLocaleDateString], depends on the locale of the browser and
    is a parameter. *)

Module UsersExport.

Record User : Type := mkUser {
  id : string;
  name : option string;
  email : string;
  role : string;
  isActive : bool;
  createdAt : Z;
  lastLoginAt : option Z
}.

(** The double quote and the line feed. *)
Definition dquote : ascii := ascii_of_nat 34.
Definition line_feed : ascii := ascii_of_nat 10.
Definition newline : string := String line_feed EmptyString.

(** [value.includes(c)] for a one-character string. *)
Fixpoint includes_char (c : ascii) (value : string) : bool :=
  match value with
  | EmptyString => false
  | String c' value' => Ascii.eqb c' c || includes_char c value'
  end.

(** [value.replace] of line 138: every double quote is written twice. *)
Fixpoint double_quotes (value : string) : string :=
  match value with
  | EmptyString => EmptyString
  | String c value' =>
      if Ascii.eqb c dquote
      then String dquote (String dquote (double_quotes value'))
      else String c (double_quotes value')
  end.

(** The cell of lines 136-139, for a cell that is a string. *)
Definition csv_cell (cell : string) : string :=
  let value := string_or (Some cell) "" in
  if includes_char "," value || includes_char dquote value
  then String dquote (double_quotes value ++ String dquote EmptyString)
  else value.

(** [row.map(cell => ...).join(',')] *)
Definition csv_row (row : list string) : string :=
  String.concat "," (map csv_cell row).

Definition headers : list string :=
  ["ID"; "Name"; "Email"; "Role"; "Status"; "Created At"; "Last Login"].

(** The row of a user, lines 123-131. *)
Definition user_row (toLocaleDateString : Z -> string) (user : User)
  : list string :=
  [id user;
   string_or (name user) "";
   email user;
   role user;
   if isActive user then "ACTIVE" else "INACTIVE";
   toLocaleDateString (createdAt user);
   match lastLoginAt user with
   | Some t => toLocaleDateString t
   | None => "Never"
   end].

(** [csvContent], lines 134-140. *)
Definition csvContent (toLocaleDateString : Z -> string)
  (users : list User) : string :=
  String.concat newline
    (String.concat "," headers
     :: map csv_row (map (user_row toLocaleDateString) users)).

(** What may follow a cell in a row: nothing, or a comma and the rest. *)
Definition cell_end (rest : string) : Prop :=
  rest = EmptyString \/ exists rest', rest = String "," rest'.

End UsersExport.

(** ** The effects of a call *)

(** The two things a call can do: answer and leave the tables alone, or
    delete by id. *)
Definition leaves_alone (c : Call) (db : Db) : Prop :=
  exists answer,
    Prisma.outcome (serve c db) = Prisma.Returned answer
    /\ In (NextResponse.status answer) [200; 400; 403; 429; 500]
    /\ Prisma.store (serve c db) = db.

Definition deletes_by_id (c : Call) (db : Db) : Prop :=
  exists ids n message,
    Prisma.outcome (serve c db)
    = Prisma.Returned (NextResponse.json (NextResponse.Deleted n message))
    /\ Prisma.store (serve c db)
       = mkDb
           (filter (fun s => negb (id_in ids (ExportSchedule.id s)))
                   (exportSchedule db))
           (filter
              (fun e => negb (id_in ids (ExportScheduleExecution.scheduleId e)))
              (exportScheduleExecution db)).

(** ** The matcher decides the language *)

Module RegexFacts.
Import Regex.

Lemma append_empty (s1 s2 : string) :
  (s1 ++ s2)%string = "" -> s1 = "" /\ s2 = "".
Proof.
  destruct s1; simpl; intros H; [split; [reflexivity | exact H] | discriminate].
Qed.

Lemma append_empty_r (s : string) : (s ++ "")%string = s.
Proof. induction s; simpl; [reflexivity | now rewrite IHs]. Qed.

Lemma nullable_lang (r : regex) : nullable r = true -> lang r "".
Proof.
  induction r; simpl; intros H; try discriminate.
  - constructor.
  - apply andb_true_iff in H as [H1 H2].
    change "" with ("" ++ "")%string. constructor; auto.
  - apply orb_true_iff in H as [H | H];
      [apply L_alt_l | apply L_alt_r]; auto.
  - constructor.
Qed.

Lemma lang_nullable (r : regex) (s : string) :
  lang r s -> s = "" -> nullable r = true.
Proof.
  induction 1; simpl; intros E; try reflexivity; try discriminate.
  - apply append_empty in E as [E1 E2]. rewrite IHlang1, IHlang2; auto.
  - rewrite IHlang; auto.
  - rewrite IHlang; auto. apply orb_true_r.
Qed.

Lemma deriv_sound (c : ascii) (r : regex) :
  forall s, lang (deriv c r) s -> lang r (String c s).
Proof.
  induction r; simpl; intros s H.
  - inversion H.
  - inversion H.
  - destruct (b c) eqn:E; inversion H; subst. now constructor.
  - destruct (nullable r1) eqn:N.
    + inversion H; subst.
      * match goal with
        | K : lang (Cat _ _) _ |- _ => inversion K; subst
        end.
        change (String c (s1 ++ s2)) with (String c s1 ++ s2)%string.
        constructor; auto.
      * change (String c s) with ("" ++ String c s)%string.
        constructor; auto using nullable_lang.
    + inversion H; subst.
      change (String c (s1 ++ s2)) with (String c s1 ++ s2)%string.
      constructor; auto.
  - inversion H; subst; [apply L_alt_l | apply L_alt_r]; auto.
  - inversion H; subst.
    change (String c (s1 ++ s2)) with (String c s1 ++ s2)%string.
    constructor; auto.
Qed.

Lemma deriv_complete (c : ascii) (r : regex) (s0 : string) :
  lang r s0 -> forall t, s0 = String c t -> lang (deriv c r) t.
Proof.
  induction 1; intros t E; simpl.
  - discriminate.
  - injection E as -> <-. rewrite H. constructor.
  - destruct s1 as [| c1 s1'].
    + simpl in E. subst s2.
      rewrite (lang_nullable H eq_refl).
      apply L_alt_r. auto.
    + simpl in E. injection E as -> <-.
      destruct (nullable r1);
        [apply L_alt_l |]; constructor; auto.
  - apply L_alt_l; auto.
  - apply L_alt_r; auto.
  - discriminate.
  - destruct s1 as [| c1 s1'].
    + simpl in E. apply (IHlang2 t E).
    + simpl in E. injection E as -> <-.
      constructor; auto.
Qed.

Theorem matches_lang (s : string) :
  forall r, matches r s = true <-> lang r s.
Proof.
  induction s as [| c s IH]; intros r; simpl.
  - split; [apply nullable_lang | intros H; apply (lang_nullable H eq_refl)].
  - rewrite IH. split;
      [apply deriv_sound | intros H; apply (deriv_complete H eq_refl)].
Qed.

End RegexFacts.

(** ** The address syntax that [emailRegex] accepts *)

Section EmailSyntax.
Import Regex.

Lemma star_class_all (p : ascii -> bool) (s : string) :
  lang (Star (Class p)) s <-> all_chars p s = true.
Proof.
  split.
  - intros H. remember (Star (Class p)) as r eqn:E.
    induction H; inversion E; subst; clear E.
    + reflexivity.
    + inversion H; subst. simpl.
      match goal with K : p _ = true |- _ => rewrite K end.
      auto.
  - induction s as [| c s IH]; simpl; intros H.
    + constructor.
    + apply andb_true_iff in H as [Hc Hs].
      change (String c s) with (String c "" ++ s)%string.
      constructor; [now constructor | auto].
Qed.

Lemma plus_class_part (p : ascii -> bool) (s : string) :
  lang (Plus (Class p)) s <-> s <> "" /\ all_chars p s = true.
Proof.
  unfold Plus. split.
  - intros H. inversion H; subst.
    match goal with K : lang (Class p) _ |- _ => inversion K; subst end.
    simpl. split; [discriminate |].
    apply andb_true_iff. split; [assumption | now apply star_class_all].
  - intros [Hne Hall]. destruct s as [| c s]; [congruence |].
    simpl in Hall. apply andb_true_iff in Hall as [Hc Hs].
    change (String c s) with (String c "" ++ s)%string.
    constructor; [now constructor | now apply star_class_all].
Qed.

Lemma lang_chr (c : ascii) (s : string) :
  lang (Chr c) s <-> s = String c "".
Proof.
  unfold Chr. split.
  - intros H. inversion H; subst.
    match goal with K : Ascii.eqb _ _ = true |- _ =>
      apply Ascii.eqb_eq in K; now subst end.
  - intros ->. constructor. apply Ascii.eqb_refl.
Qed.

Lemma emailRegex_lang (s : string) :
  lang emailRegex s <-> well_formed_address s.
Proof.
  unfold emailRegex, well_formed_address, address_part. split.
  - intros H.
    inversion H as [| | ? ? local r1 Hl H1 | | | |]; subst; clear H.
    inversion H1 as [| | ? ? a1 r2 Ha1 H2 | | | |]; subst; clear H1.
    inversion H2 as [| | ? ? domain r3 Hd H3 | | | |]; subst; clear H2.
    inversion H3 as [| | ? ? a2 tld Ha2 Ht | | | |]; subst; clear H3.
    apply lang_chr in Ha1, Ha2. subst a1 a2.
    apply plus_class_part in Hl, Hd, Ht.
    exists local, domain, tld. auto.
  - intros (local & domain & tld & -> & Hl & Hd & Ht).
    apply plus_class_part in Hl, Hd, Ht.
    constructor; [assumption |].
    change ("@" ++ domain ++ "." ++ tld)%string
      with (String "@" "" ++ (domain ++ "." ++ tld))%string.
    constructor; [now apply lang_chr |].
    constructor; [assumption |].
    change ("." ++ tld)%string with (String "." "" ++ tld)%string.
    constructor; [now apply lang_chr | assumption].
Qed.

(** [emailRegex.test] accepts exactly the addresses
    [<local>@<domain>.<tld>]. *)
Theorem emailRegex_test_spec (s : string) :
  emailRegex_test s = true <-> well_formed_address s.
Proof.
  unfold emailRegex_test.
  rewrite RegexFacts.matches_lang. apply emailRegex_lang.
Qed.

End EmailSyntax.

(** ** The runs of the handlers *)

Lemma bind_ret {A B} (a : A) (f : A -> Prisma.M B) (db : Db) :
  Prisma.bind (Prisma.ret a) f db = f a db.
Proof.
  unfold Prisma.bind, Prisma.ret. simpl. now destruct (f a db).
Qed.

Section Runs.
Variable env : Env.
Variable context : Context.t.

Lemma denied_run (c : Call) (db : Db) :
  admitted c = false ->
  serve c db =
  answers (if call_rate_allowed c then forbidden else rate_limited) db.
Proof.
  unfold admitted.
  destruct c as [e k r | e k r | e k r | e k r]; simpl;
    unfold GET, POST, PATCH, DELETE, Prisma.try_catch, rate_allowed, capable;
    intros H;
    destruct (rateLimit e _); simpl in *;
    try reflexivity; rewrite H; reflexivity.
Qed.

Lemma POST_run (request : NextRequest.t ScheduleInput.t)
  (body : ScheduleInput.t) (db : Db) :
  rate_allowed env request = true ->
  capable env context = true ->
  NextRequest.json request = Some body ->
  POST env context request db =
  if missing_required body then
    answers (NextResponse.error
               "Missing required fields: name, frequency, format, recipients"
               400) db
  else if invalid_format body then
    answers (NextResponse.error "Invalid export format" 400) db
  else if invalid_recipients body then
    answers (NextResponse.error
               "One or more recipient emails are invalid" 400) db
  else if Nat.leb 20 (count_of_tenant (Context.tenantId context) db) then
    Prisma.mkRun
      (Prisma.Returned
         (NextResponse.error
            "Maximum number of export schedules (20) reached for this tenant"
            400))
      db [Prisma.exportSchedule_count (Context.tenantId context)]
  else
    Prisma.mkRun (Prisma.Returned failed_to_create)
      db [Prisma.exportSchedule_count (Context.tenantId context)].
Proof.
  unfold rate_allowed, capable. intros Hr Hc Hj.
  unfold POST, request_json, missing_required, invalid_format,
    invalid_recipients, answers.
  rewrite Hr, Hc, Hj. change (negb true) with false. cbv iota.
  unfold Prisma.try_catch. rewrite bind_ret. cbv beta zeta.
  destruct (_ || _ || _ || _); [reflexivity |].
  destruct (negb (includes _ _)); [reflexivity |].
  destruct (existsb _ _); [reflexivity |].
  unfold Prisma.bind, schedule_count, schedule_create, Prisma.call,
    Prisma.ret, crypto_getRandomUUID.
  cbv beta iota zeta delta [Prisma.outcome Prisma.store Prisma.journal].
  destruct (Nat.leb 20 _); reflexivity.
Qed.

Lemma POST_unparsed (request : NextRequest.t ScheduleInput.t) (db : Db) :
  rate_allowed env request = true ->
  capable env context = true ->
  NextRequest.json request = None ->
  POST env context request db =
  answers (NextResponse.error "Failed to create export schedule" 500) db.
Proof.
  unfold rate_allowed, capable. intros Hr Hc Hj.
  unfold POST, request_json. rewrite Hr, Hc, Hj. reflexivity.
Qed.

Lemma GET_run {Body} (request : NextRequest.t Body) (db : Db) :
  rate_allowed env request = true ->
  capable env context = true ->
  exists schedules,
    GET env context request db =
    Prisma.mkRun
      (Prisma.Returned (NextResponse.json (NextResponse.Schedules schedules)))
      db [Prisma.exportSchedule_findMany (Context.tenantId context)].
Proof.
  unfold rate_allowed, capable. intros Hr Hc.
  unfold GET. rewrite Hr, Hc. eexists. reflexivity.
Qed.

Lemma PATCH_store (request : NextRequest.t PatchInput.t) (db : Db) :
  Prisma.store (PATCH env context request db) = db.
Proof.
  unfold PATCH, request_json.
  destruct (rateLimit env _); [| reflexivity].
  destruct (hasPermission env _ _); [| reflexivity].
  destruct (NextRequest.json request) as [body |]; [| reflexivity].
  change (negb true) with false. cbv iota.
  unfold Prisma.try_catch. rewrite bind_ret. cbv beta zeta.
  destruct (PatchInput.action body) as [a |],
           (PatchInput.scheduleIds body) as [ids |];
    try reflexivity.
  destruct (String.eqb a "toggleActive"); reflexivity.
Qed.

Lemma DELETE_run {Body} (request : NextRequest.t Body) (db : Db) :
  rate_allowed env request = true ->
  capable env context = true ->
  DELETE env context request db =
  match NextRequest.ids request with
  | None => answers (NextResponse.error "No schedule IDs provided" 400) db
  | Some s =>
      let ids := split "," s in
      let deleted :=
        length (filter (fun s => id_in ids (ExportSchedule.id s))
                       (exportSchedule db)) in
      Prisma.mkRun
        (Prisma.Returned
           (NextResponse.json
              (NextResponse.Deleted deleted
                 (string_of_nat deleted ++ " schedule(s) deleted"))))
        (mkDb
           (filter (fun s => negb (id_in ids (ExportSchedule.id s)))
                   (exportSchedule db))
           (filter
              (fun e =>
                 negb (id_in ids (ExportScheduleExecution.scheduleId e)))
              (exportScheduleExecution db)))
        [Prisma.exportScheduleExecution_deleteMany ids;
         Prisma.exportSchedule_deleteMany ids]
  end.
Proof.
  unfold rate_allowed, capable. intros Hr Hc.
  unfold DELETE. rewrite Hr, Hc. change (negb true) with false. cbv iota.
  destruct (NextRequest.ids request) as [s |]; [| reflexivity].
  cbv zeta.
  assert (N : Nat.eqb (length (split "," s)) 0 = false).
  { destruct s as [| c s]; simpl; [reflexivity |].
    destruct (Ascii.eqb c ","); [reflexivity |].
    destruct (split "," s); reflexivity. }
  rewrite N. reflexivity.
Qed.
End Runs.

(** ** Counting the schedules of a tenant *)

Lemma count_of_tenant_create (t : string) (db : Db) (row : ExportSchedule.t) :
  count_of_tenant t
    (mkDb (exportSchedule db ++ [row]) (exportScheduleExecution db))
  = count_of_tenant t db + (if of_tenant t row then 1 else 0).
Proof.
  unfold count_of_tenant. simpl. rewrite filter_app, length_app. simpl.
  destruct (of_tenant t row); reflexivity.
Qed.

Lemma length_filter_filter {A} (p q : A -> bool) (l : list A) :
  length (filter p (filter q l)) <= length (filter p l).
Proof.
  induction l as [| x l IH]; simpl; [lia |].
  destruct (q x); simpl; destruct (p x); simpl; lia.
Qed.

Lemma length_filter_split {A} (p : A -> bool) (l : list A) :
  length (filter p l) + length (filter (fun x => negb (p x)) l) = length l.
Proof.
  induction l as [| x l IH]; simpl; [reflexivity |].
  destruct (p x); simpl; lia.
Qed.

(** Serving a call keeps every tenant within the quota. *)
Lemma serve_within_quota (c : Call) (db : Db) :
  within_quota db -> within_quota (Prisma.store (serve c db)).
Proof.
  intros Q.
  destruct (admitted c) eqn:A.
  2:{ rewrite (denied_run c db A). exact Q. }
  unfold admitted in A. apply andb_true_iff in A as [Hr Hc].
  destruct c as [e k r | e k r | e k r | e k r]; simpl in Hr, Hc |- *.
  - destruct (GET_run e k r db Hr Hc) as [l ->]. exact Q.
  - destruct (NextRequest.json r) as [body |] eqn:J.
    + rewrite (POST_run e k r db Hr Hc J).
      destruct (missing_required body); [exact Q |].
      destruct (invalid_format body); [exact Q |].
      destruct (invalid_recipients body); [exact Q |].
      destruct (Nat.leb 20 _); exact Q.
    + rewrite (POST_unparsed e k r db Hr Hc J). exact Q.
  - rewrite PATCH_store. exact Q.
  - rewrite (DELETE_run e k r db Hr Hc).
    destruct (NextRequest.ids r); [| exact Q].
    intros t. unfold count_of_tenant. simpl.
    specialize (Q t). unfold count_of_tenant in Q.
    pose proof (length_filter_filter (of_tenant t)
                  (fun s0 => negb (id_in (split "," s) (ExportSchedule.id s0)))
                  (exportSchedule db)).
    lia.
Qed.

Lemma serve_all_within_quota (calls : list Call) :
  forall db, within_quota db -> within_quota (serve_all calls db).
Proof.
  induction calls as [| c calls IH]; simpl; intros db Q; [exact Q |].
  apply IH, serve_within_quota, Q.
Qed.

(** ** Validation of a body *)

Lemma id_in_In (ids : list string) (i : string) :
  id_in ids i = true <-> In i ids.
Proof.
  unfold id_in. rewrite existsb_exists. split.
  - intros (x & Hx & E). apply String.eqb_eq in E. now subst.
  - intros H. exists i. split; [assumption | apply String.eqb_refl].
Qed.

Lemma truthy_string_Some (s : option string) :
  truthy_string s = true <-> exists s', s = Some s' /\ s' <> "".
Proof.
  unfold truthy_string. destruct s as [s' |].
  - rewrite negb_true_iff. split.
    + intros H. exists s'. split; [reflexivity |].
      now apply String.eqb_neq.
    + intros (x & [= <-] & N). now apply String.eqb_neq.
  - split; [discriminate | intros (x & [=] & _)].
Qed.

Lemma includes_In (arr : list string) (x : string) :
  includes arr x = true <-> In x arr.
Proof. apply id_in_In. Qed.

Lemma invalid_recipients_spec (body : ScheduleInput.t) :
  invalid_recipients body = true <->
  exists a, In a (the_array (ScheduleInput.recipients body))
            /\ ~ well_formed_address a.
Proof.
  unfold invalid_recipients. rewrite existsb_exists.
  split; intros (a & Ha & H); exists a; (split; [assumption |]).
  - rewrite <- emailRegex_test_spec. apply negb_true_iff in H. congruence.
  - rewrite <- emailRegex_test_spec in H.
    destruct (emailRegex_test a); [now elim H | reflexivity].
Qed.

Lemma accepted_true (body : ScheduleInput.t) :
  accepted body = true <->
  missing_required body = false /\ invalid_format body = false
  /\ invalid_recipients body = false.
Proof.
  unfold accepted. rewrite !andb_true_iff, !negb_true_iff. tauto.
Qed.

Lemma valid_input_with_accepted (freq_ok : string -> Prop)
  (body : ScheduleInput.t) :
  (forall f, freq_ok f -> f <> "") ->
  valid_input_with freq_ok body -> accepted body = true.
Proof.
  intros Hne ((n & Hn & Nn) & (f & Hf & Ff) & (g & Hg & Fg)
              & (rs & Hrs & Nrs & Wrs)).
  apply accepted_true. repeat split.
  - unfold missing_required.
    assert (T1 : truthy_string (ScheduleInput.name body) = true)
      by (apply truthy_string_Some; eauto).
    assert (T2 : truthy_string (ScheduleInput.frequency body) = true)
      by (apply truthy_string_Some; eauto).
    assert (T3 : truthy_string (ScheduleInput.format body) = true).
    { apply truthy_string_Some. exists g. split; [assumption |].
      simpl in Fg. intros ->. intuition discriminate. }
    rewrite T1, T2, T3, Hrs. simpl.
    destruct rs; [congruence | reflexivity].
  - unfold invalid_format. rewrite Hg. simpl the_string.
    apply negb_false_iff, includes_In, Fg.
  - destruct (invalid_recipients body) eqn:E; [| reflexivity].
    apply invalid_recipients_spec in E as (a & Ha & Na).
    rewrite Hrs in Ha. simpl in Ha.
    rewrite Forall_forall in Wrs. elim Na. auto.
Qed.

Lemma valid_input_accepted (body : ScheduleInput.t) :
  valid_input body -> accepted body = true.
Proof.
  apply valid_input_with_accepted.
  intros f Hf ->. simpl in Hf. intuition discriminate.
Qed.

(** ** Admission *)

(** C8. Every operation (list, create, bulk toggle, bulk delete) checks
    admission first and in a fixed order: a request that the rate limiter
    denies is answered [RateLimited] whatever the capability of the subject,
    a request that the rate limiter allows and whose subject lacks
    [admin:users:export] is answered [Forbidden], and a denied request
    issues no query and leaves both tables as they were. *)
Theorem admission_denial_is_first_and_terminal (c : Call) (db : Db) :
  admitted c = false ->
  exists answer,
    Prisma.outcome (serve c db) = Prisma.Returned answer
    /\ answer = (if call_rate_allowed c then forbidden else rate_limited)
    /\ failure_of answer
       = Some (if call_rate_allowed c then Forbidden else RateLimited)
    /\ Prisma.store (serve c db) = db
    /\ Prisma.journal (serve c db) = [].
Proof.
  intros A. rewrite (denied_run c db A).
  eexists. split; [reflexivity |]. split; [reflexivity |].
  destruct (call_rate_allowed c); repeat split.
Qed.

Lemma admission_denial_is_first_and_terminal_witness :
  (exists answer,
     Prisma.outcome
       (serve (CallPOST Sample.limited Sample.acme
                 (Sample.post (Sample.report "daily" Sample.team)))
              Sample.acme_db)
     = Prisma.Returned answer
     /\ failure_of answer = Some RateLimited)
  /\ (exists answer,
        Prisma.outcome
          (serve (CallDELETE Sample.unprivileged Sample.acme
                    (Sample.delete "a1,a2"))
                 Sample.acme_db)
        = Prisma.Returned answer
        /\ failure_of answer = Some Forbidden).
Proof.
  split.
  - destruct (admission_denial_is_first_and_terminal
                (CallPOST Sample.limited Sample.acme
                   (Sample.post (Sample.report "daily" Sample.team)))
                Sample.acme_db eq_refl)
      as (answer & H1 & _ & H3 & _).
    exists answer. split; [exact H1 | exact H3].
  - destruct (admission_denial_is_first_and_terminal
                (CallDELETE Sample.unprivileged Sample.acme
                   (Sample.delete "a1,a2"))
                Sample.acme_db eq_refl)
      as (answer & H1 & _ & H3 & _).
    exists answer. split; [exact H1 | exact H3].
Defined.

(** ** Creation *)

Section Creation.
Variable env : Env.
Variable context : Context.t.
Variable request : NextRequest.t ScheduleInput.t.
Variable body : ScheduleInput.t.
Variable db : Db.
Hypothesis rate_ok : rate_allowed env request = true.
Hypothesis capability_ok : capable env context = true.
Hypothesis parsed : NextRequest.json request = Some body.

(** An accepted create under the quota reaches line 128, where
    [crypto.getRandomUUID()] throws: it is answered 500 after the count,
    and nothing is written. *)
Lemma POST_throws :
  accepted body = true ->
  count_of_tenant (Context.tenantId context) db < 20 ->
  POST env context request db =
  Prisma.mkRun (Prisma.Returned failed_to_create) db
    [Prisma.exportSchedule_count (Context.tenantId context)].
Proof.
  intros A L. apply accepted_true in A as (A1 & A2 & A3).
  rewrite (POST_run env context request db rate_ok capability_ok parsed).
  rewrite A1, A2, A3.
  apply Nat.leb_gt in L. rewrite L. reflexivity.
Qed.

Lemma POST_over_quota :
  accepted body = true ->
  20 <= count_of_tenant (Context.tenantId context) db ->
  POST env context request db =
  Prisma.mkRun (Prisma.Returned quota_exceeded) db
    [Prisma.exportSchedule_count (Context.tenantId context)].
Proof.
  intros A L. apply accepted_true in A as (A1 & A2 & A3).
  rewrite (POST_run env context request db rate_ok capability_ok parsed).
  rewrite A1, A2, A3.
  apply Nat.leb_le in L. rewrite L. reflexivity.
Qed.

Lemma POST_rejected :
  accepted body = false ->
  exists answer,
    POST env context request db = answers answer db
    /\ failure_of answer = Some ValidationError.
Proof.
  intros A.
  rewrite (POST_run env context request db rate_ok capability_ok parsed).
  unfold accepted in A.
  destruct (missing_required body); [eexists; split; reflexivity |].
  destruct (invalid_format body); [eexists; split; reflexivity |].
  destruct (invalid_recipients body); [eexists; split; reflexivity |].
  discriminate.
Qed.

(** A body that passes the checks is answered after the count of the
    tenant's schedules, and not with a validation error. *)
Lemma POST_passes_validation :
  accepted body = true ->
  exists answer,
    POST env context request db =
    Prisma.mkRun (Prisma.Returned answer) db
      [Prisma.exportSchedule_count (Context.tenantId context)]
    /\ (failure_of answer = Some QuotaExceeded
        \/ failure_of answer = Some Internal).
Proof.
  intros A.
  destruct (Nat.ltb_spec (count_of_tenant (Context.tenantId context) db) 20)
    as [L | L].
  - rewrite (POST_throws A L). eexists. split; [reflexivity | now right].
  - rewrite (POST_over_quota A L). eexists. split; [reflexivity | now left].
Qed.
End Creation.

(** No request to [POST] writes, and none is answered 200. *)
Lemma POST_never_creates (env : Env) (context : Context.t)
  (request : NextRequest.t ScheduleInput.t) (db : Db) :
  Prisma.store (POST env context request db) = db
  /\ exists answer,
       Prisma.outcome (POST env context request db) = Prisma.Returned answer
       /\ failure_of answer <> None.
Proof.
  destruct (admitted (CallPOST env context request)) eqn:A.
  - unfold admitted in A. apply andb_true_iff in A as [Hr Hc].
    simpl in Hr, Hc.
    destruct (NextRequest.json request) as [body |] eqn:J.
    + destruct (accepted body) eqn:V.
      * destruct (POST_passes_validation env context request db Hr Hc J V)
          as (answer & -> & F).
        split; [reflexivity |]. exists answer. split; [reflexivity |].
        destruct F as [F | F]; congruence.
      * destruct (POST_rejected env context request db Hr Hc J V)
          as (answer & -> & F).
        split; [reflexivity |]. exists answer. split; [reflexivity |].
        congruence.
    + rewrite (POST_unparsed env context request db Hr Hc J).
      split; [reflexivity |]. eexists. split; [reflexivity |]. discriminate.
  - pose proof (denied_run (CallPOST env context request) db A) as D.
    simpl serve in D. rewrite D.
    split; [reflexivity |]. eexists. split; [reflexivity |].
    destruct (call_rate_allowed _); discriminate.
Qed.

Lemma sample_addresses_well_formed : Forall well_formed_address Sample.team.
Proof.
  repeat constructor; apply emailRegex_test_spec; reflexivity.
Qed.

Lemma sample_report_valid (frequency : string) :
  In frequency ["daily"; "weekly"; "monthly"] ->
  valid_input (Sample.report frequency Sample.team).
Proof.
  intros F. repeat split.
  - exists "Users report". split; [reflexivity | discriminate].
  - exists frequency. split; [reflexivity | exact F].
  - exists "csv". split; [reflexivity | simpl; auto].
  - exists Sample.team. split; [reflexivity |].
    split; [discriminate | apply sample_addresses_well_formed].
Qed.

Lemma sample_report_valid_with (frequency : string) :
  frequency <> "" ->
  valid_input_with (fun f => f <> "") (Sample.report frequency Sample.team).
Proof.
  intros F. repeat split.
  - exists "Users report". split; [reflexivity | discriminate].
  - exists frequency. split; [reflexivity | exact F].
  - exists "csv". split; [reflexivity | simpl; auto].
  - exists Sample.team. split; [reflexivity |].
    split; [discriminate | apply sample_addresses_well_formed].
Qed.

(** C2, on the code: the quota check refuses the 21st schedule, but the
    20th is not created either.  For a tenant with 19 schedules a valid,
    admitted create passes the checks and the count, throws at
    [crypto.getRandomUUID()] and is answered 500; the table keeps its 19
    rows. *)
Theorem POST_cannot_create_the_20th :
  let body := Sample.report "daily" Sample.team in
  valid_input body
  /\ map ExportSchedule.tenantId (exportSchedule (Sample.acme_with 19))
     = repeat "acme" 19
  /\ POST Sample.allow Sample.acme (Sample.post body) (Sample.acme_with 19)
     = Prisma.mkRun (Prisma.Returned failed_to_create)
         (Sample.acme_with 19) [Prisma.exportSchedule_count "acme"]
  /\ failure_of failed_to_create = Some Internal
  /\ POST Sample.allow Sample.acme (Sample.post body) (Sample.acme_with 20)
     = Prisma.mkRun (Prisma.Returned quota_exceeded)
         (Sample.acme_with 20) [Prisma.exportSchedule_count "acme"].
Proof.
  cbv zeta. split; [apply sample_report_valid; simpl; auto |].
  split; [reflexivity |].
  split; [| split; [reflexivity |]].
  - apply (POST_throws Sample.allow Sample.acme
             (Sample.post (Sample.report "daily" Sample.team))
             (Sample.acme_with 19) eq_refl eq_refl eq_refl eq_refl).
    vm_compute. apply le_n.
  - apply (POST_over_quota Sample.allow Sample.acme
             (Sample.post (Sample.report "daily" Sample.team))
             (Sample.acme_with 20) eq_refl eq_refl eq_refl eq_refl).
    vm_compute. apply le_n.
Qed.

(** C4, on the code: a create with a list of two well-formed addresses and
    valid other fields, admitted and under the quota, does not succeed: it
    is answered 500 and no schedule is written.  The same create with a
    malformed address is answered 400 before any query. *)
Theorem POST_cannot_create_with_valid_recipients :
  valid_input (Sample.report "daily" Sample.team)
  /\ POST Sample.allow Sample.acme
       (Sample.post (Sample.report "daily" Sample.team)) Sample.empty
     = Prisma.mkRun (Prisma.Returned failed_to_create) Sample.empty
         [Prisma.exportSchedule_count "acme"]
  /\ POST Sample.allow Sample.acme
       (Sample.post (Sample.report "daily" ["ops@example"])) Sample.empty
     = answers
         (NextResponse.error "One or more recipient emails are invalid" 400)
         Sample.empty.
Proof.
  split; [apply sample_report_valid; simpl; auto |].
  split; reflexivity.
Qed.

(** ** The fields that [POST] does not validate *)

(** C5, as stated, fails: a create whose frequency is [hourly], outside
    the enumeration, is not answered with a validation error.  It passes
    the checks, the tenant's schedules are counted, and the answer is the
    500 of the [catch]. *)
Lemma POST_does_not_reject_unrecognized_frequency :
  ~ In "hourly" ["daily"; "weekly"; "monthly"]
  /\ POST Sample.allow Sample.acme
       (Sample.post (Sample.report "hourly" Sample.team)) Sample.empty
     = Prisma.mkRun (Prisma.Returned failed_to_create) Sample.empty
         [Prisma.exportSchedule_count "acme"]
  /\ failure_of failed_to_create = Some Internal
  /\ failure_of failed_to_create <> Some ValidationError.
Proof.
  split; [simpl; intuition discriminate |].
  split; [reflexivity |]. split; [reflexivity | discriminate].
Qed.

(** C5, amended. Before any query, [POST] answers [ValidationError] to a
    create whose frequency is missing or empty and to a create whose
    format is not one of csv, xlsx, json, pdf; the frequency is not
    compared with daily, weekly, monthly: a create with any non-empty
    frequency and otherwise valid fields is not answered
    [ValidationError], it passes the checks and the handler goes on to
    count the schedules of the tenant. *)
Theorem POST_validates_format_and_presence_of_frequency
  (env : Env) (context : Context.t)
  (request : NextRequest.t ScheduleInput.t) (body : ScheduleInput.t)
  (db : Db) :
  rate_allowed env request = true ->
  capable env context = true ->
  NextRequest.json request = Some body ->
  ((~ (exists f, ScheduleInput.frequency body = Some f /\ f <> "")
    \/ ~ (exists f, ScheduleInput.format body = Some f
                    /\ In f ["csv"; "xlsx"; "json"; "pdf"])) ->
   exists answer,
     Prisma.outcome (POST env context request db) = Prisma.Returned answer
     /\ failure_of answer = Some ValidationError
     /\ Prisma.store (POST env context request db) = db
     /\ Prisma.journal (POST env context request db) = [])
  /\ (valid_input_with (fun f => f <> "") body ->
      exists answer rest,
        Prisma.outcome (POST env context request db) = Prisma.Returned answer
        /\ failure_of answer <> Some ValidationError
        /\ Prisma.journal (POST env context request db)
           = Prisma.exportSchedule_count (Context.tenantId context) :: rest).
Proof.
  intros Hr Hc J. split.
  - intros B.
    assert (A : accepted body = false).
    { destruct (accepted body) eqn:A; [| reflexivity].
      apply accepted_true in A as (A1 & A2 & _).
      unfold missing_required in A1.
      apply orb_false_iff in A1 as (A1 & _).
      apply orb_false_iff in A1 as (A1 & A1c).
      apply orb_false_iff in A1 as (_ & A1b).
      apply negb_false_iff in A1b, A1c.
      destruct B as [B | B]; elim B.
      - apply truthy_string_Some, A1b.
      - apply truthy_string_Some in A1c as (f & E & _).
        exists f. split; [exact E |].
        unfold invalid_format in A2. rewrite E in A2. simpl the_string in A2.
        apply negb_false_iff in A2. apply includes_In, A2. }
    destruct (POST_rejected env context request db Hr Hc J A)
      as (answer & -> & F).
    exists answer. repeat split. exact F.
  - intros V.
    assert (A : accepted body = true)
      by (apply (@valid_input_with_accepted (fun f => f <> "") body); auto).
    destruct (POST_passes_validation env context request db Hr Hc J A)
      as (answer & -> & F).
    exists answer, []. split; [reflexivity |]. split; [| reflexivity].
    destruct F as [F | F]; congruence.
Qed.

Lemma POST_validates_format_and_presence_of_frequency_witness :
  (exists answer,
     Prisma.outcome
       (POST Sample.allow Sample.acme
          (Sample.post (Sample.report "" Sample.team)) Sample.empty)
     = Prisma.Returned answer
     /\ failure_of answer = Some ValidationError)
  /\ (exists answer rest,
        Prisma.outcome
          (POST Sample.allow Sample.acme
             (Sample.post (Sample.report "hourly" Sample.team)) Sample.empty)
        = Prisma.Returned answer
        /\ failure_of answer <> Some ValidationError
        /\ Prisma.journal
             (POST Sample.allow Sample.acme
                (Sample.post (Sample.report "hourly" Sample.team))
                Sample.empty)
           = Prisma.exportSchedule_count "acme" :: rest).
Proof.
  split.
  - destruct (POST_validates_format_and_presence_of_frequency
                Sample.allow Sample.acme
                (Sample.post (Sample.report "" Sample.team))
                Sample.empty eq_refl eq_refl eq_refl) as (H & _).
    destruct H as (answer & H1 & H2 & _).
    + left. intros (f & E & N). injection E as <-. now apply N.
    + exists answer. split; assumption.
  - destruct (POST_validates_format_and_presence_of_frequency
                Sample.allow Sample.acme
                (Sample.post (Sample.report "hourly" Sample.team))
                Sample.empty eq_refl eq_refl eq_refl) as (_ & H).
    apply H. apply sample_report_valid_with. discriminate.
Defined.

(** C6, as stated, fails: a weekly create without [dayOfWeek] is not
    answered with a validation error.  It passes the checks, the tenant's
    schedules are counted, and the answer is the 500 of the [catch]. *)
Lemma POST_does_not_require_dayOfWeek :
  let weekly := Sample.report "weekly" Sample.team in
  ScheduleInput.frequency weekly = Some "weekly"
  /\ ScheduleInput.dayOfWeek weekly = None
  /\ POST Sample.allow Sample.acme (Sample.post weekly) Sample.empty
     = Prisma.mkRun (Prisma.Returned failed_to_create) Sample.empty
         [Prisma.exportSchedule_count "acme"]
  /\ failure_of failed_to_create <> Some ValidationError.
Proof.
  cbv zeta. repeat split. discriminate.
Qed.

Lemma accepted_set_dayOfWeek (d : option Z) (body : ScheduleInput.t) :
  accepted (ScheduleInput.set_dayOfWeek d body) = accepted body.
Proof. reflexivity. Qed.

(** C6, amended. [POST] does not validate [dayOfWeek] and does not tie it
    to the frequency: none of its checks reads the field, and a create
    that is valid in its name, frequency, format and recipients is not
    answered [ValidationError] whatever its [dayOfWeek] (absent, outside
    0..6, or present with a frequency other than weekly): it passes the
    checks and the handler goes on to count the schedules of the
    tenant. *)
Theorem POST_does_not_validate_dayOfWeek
  (env : Env) (context : Context.t) (header ids : option string)
  (body : ScheduleInput.t) (d : option Z) (db : Db) :
  rate_allowed env (NextRequest.mk header (Some body) ids) = true ->
  capable env context = true ->
  valid_input body ->
  accepted (ScheduleInput.set_dayOfWeek d body) = accepted body
  /\ exists answer rest,
       Prisma.outcome
         (POST env context
            (NextRequest.mk header
               (Some (ScheduleInput.set_dayOfWeek d body)) ids) db)
       = Prisma.Returned answer
       /\ failure_of answer <> Some ValidationError
       /\ Prisma.journal
            (POST env context
               (NextRequest.mk header
                  (Some (ScheduleInput.set_dayOfWeek d body)) ids) db)
          = Prisma.exportSchedule_count (Context.tenantId context) :: rest.
Proof.
  intros Hr Hc V. split; [reflexivity |].
  apply valid_input_accepted in V.
  rewrite <- (accepted_set_dayOfWeek d) in V.
  destruct (POST_passes_validation env context
              (NextRequest.mk header
                 (Some (ScheduleInput.set_dayOfWeek d body)) ids)
              db Hr Hc eq_refl V) as (answer & -> & F).
  exists answer, []. split; [reflexivity |]. split; [| reflexivity].
  destruct F as [F | F]; congruence.
Qed.

Lemma POST_does_not_validate_dayOfWeek_witness :
  exists answer rest,
    Prisma.outcome
      (POST Sample.allow Sample.acme
         (Sample.post
            (ScheduleInput.set_dayOfWeek (Some 8%Z)
               (Sample.report "weekly" Sample.team)))
         Sample.empty)
    = Prisma.Returned answer
    /\ failure_of answer <> Some ValidationError
    /\ Prisma.journal
         (POST Sample.allow Sample.acme
            (Sample.post
               (ScheduleInput.set_dayOfWeek (Some 8%Z)
                  (Sample.report "weekly" Sample.team)))
            Sample.empty)
       = Prisma.exportSchedule_count "acme" :: rest.
Proof.
  refine (proj2 (POST_does_not_validate_dayOfWeek
                   Sample.allow Sample.acme (Some "203.0.113.7") None
                   (Some 8%Z) Sample.empty (body := Sample.report "weekly" Sample.team)
                   eq_refl eq_refl _)).
  apply sample_report_valid. simpl. auto.
Defined.

(** The value 0 of [dayOfWeek] (Sunday) is falsy: [dayOfWeek || null] of
    line 134 makes null of it. *)
Example POST_drops_dayOfWeek_zero :
  ExportSchedule.dayOfWeek
    (new_schedule Sample.uuid Sample.allow Sample.acme
       (Sample.with_dayOfWeek 0 (Sample.report "weekly" Sample.team)))
  = None.
Proof. reflexivity. Qed.

(** C10, on the code: the defaults are written down, [isActive = true] of
    line 91 and [time || '09:00'] of line 136, but no schedule is
    persisted with them.  A create that omits [isActive] and [time], valid
    in every other field, admitted and under the quota, is answered 500
    and the table stays empty. *)
Theorem POST_persists_no_defaults :
  let body := Sample.report "monthly" Sample.team in
  ScheduleInput.isActive body = None
  /\ ScheduleInput.time body = None
  /\ valid_input body
  /\ Prisma.outcome
       (POST Sample.allow Sample.acme (Sample.post body) Sample.empty)
     = Prisma.Returned failed_to_create
  /\ exportSchedule
       (Prisma.store
          (POST Sample.allow Sample.acme (Sample.post body) Sample.empty))
     = []
  /\ ExportSchedule.isActive
       (new_schedule Sample.uuid Sample.allow Sample.acme body) = true
  /\ ExportSchedule.time
       (new_schedule Sample.uuid Sample.allow Sample.acme body) = "09:00".
Proof.
  cbv zeta. split; [reflexivity |]. split; [reflexivity |].
  split; [apply sample_report_valid; simpl; auto |].
  repeat split.
Qed.

(** ** Bulk operations *)

Lemma not_id_in (ids : list string) (i : string) :
  negb (id_in ids i) = true <-> ~ In i ids.
Proof.
  rewrite negb_true_iff, <- id_in_In.
  destruct (id_in ids i); split; congruence.
Qed.

(** C3. An admitted [DELETE] with an [ids] parameter first deletes the
    executions whose [scheduleId] is in the list, while every schedule is
    still stored, and then the schedules whose [id] is in the list; no
    execution that remains refers to a deleted schedule, and executions
    that all belonged to stored schedules still do; the ids of the list
    that name a schedule are deleted, the others are ignored, and the
    answer is 200 with [deletedCount] the number of schedule rows
    removed. *)
Theorem DELETE_removes_executions_then_schedules {Body : Type}
  (env : Env) (context : Context.t) (request : NextRequest.t Body)
  (db : Db) (s : string) :
  rate_allowed env request = true ->
  capable env context = true ->
  NextRequest.ids request = Some s ->
  let ids := split "," s in
  let r := DELETE env context request db in
  let mid := Prisma.store (execution_deleteMany ids db) in
  Prisma.journal r
  = [Prisma.exportScheduleExecution_deleteMany ids;
     Prisma.exportSchedule_deleteMany ids]
  /\ exportSchedule mid = exportSchedule db
  /\ (forall e, In e (exportScheduleExecution mid) ->
                ~ In (ExportScheduleExecution.scheduleId e) ids)
  /\ Prisma.store r = Prisma.store (schedule_deleteMany ids mid)
  /\ (forall x, In x (exportSchedule (Prisma.store r)) <->
                In x (exportSchedule db) /\ ~ In (ExportSchedule.id x) ids)
  /\ (forall e, In e (exportScheduleExecution (Prisma.store r)) <->
                In e (exportScheduleExecution db)
                /\ ~ In (ExportScheduleExecution.scheduleId e) ids)
  /\ (forall e x, In e (exportScheduleExecution (Prisma.store r)) ->
                  In x (exportSchedule db) ->
                  ~ In x (exportSchedule (Prisma.store r)) ->
                  ExportScheduleExecution.scheduleId e <> ExportSchedule.id x)
  /\ (no_dangling db -> no_dangling (Prisma.store r))
  /\ exists n,
       Prisma.outcome r
       = Prisma.Returned
           (NextResponse.json
              (NextResponse.Deleted n
                 (string_of_nat n ++ " schedule(s) deleted")))
       /\ n = length (filter (fun x => id_in ids (ExportSchedule.id x))
                             (exportSchedule db))
       /\ n + length (exportSchedule (Prisma.store r))
          = length (exportSchedule db).
Proof.
  intros Hr Hc Hs ids r mid. subst r mid.
  rewrite (DELETE_run env context request db Hr Hc), Hs. cbv zeta.
  fold ids. simpl Prisma.store. simpl Prisma.journal.
  simpl exportSchedule. simpl exportScheduleExecution.
  assert (S1 : forall x,
             In x (filter (fun x => negb (id_in ids (ExportSchedule.id x)))
                          (exportSchedule db)) <->
             In x (exportSchedule db) /\ ~ In (ExportSchedule.id x) ids).
  { intros x. rewrite filter_In, not_id_in. reflexivity. }
  assert (S2 : forall e,
             In e (filter
                     (fun e =>
                        negb (id_in ids (ExportScheduleExecution.scheduleId e)))
                     (exportScheduleExecution db)) <->
             In e (exportScheduleExecution db)
             /\ ~ In (ExportScheduleExecution.scheduleId e) ids).
  { intros e. rewrite filter_In, not_id_in. reflexivity. }
  split; [reflexivity |]. split; [reflexivity |].
  split; [intros e He; apply S2 in He; tauto |].
  split; [reflexivity |].
  split; [exact S1 |]. split; [exact S2 |].
  split; [| split].
  - intros e x He Hx Hgone E. apply S2 in He as [_ He].
    apply Hgone, S1. split; [assumption |]. now rewrite <- E.
  - intros D e He. apply S2 in He as [He Hn].
    destruct (D e He) as (x & Hx & E).
    exists x. split; [| exact E]. apply S1. split; [assumption |].
    now rewrite E.
  - eexists. split; [reflexivity |]. split; [reflexivity |].
    apply length_filter_split.
Qed.

Lemma DELETE_removes_executions_then_schedules_witness :
  Prisma.journal
    (DELETE Sample.allow Sample.acme (Sample.delete "a1,zz") Sample.acme_db)
  = [Prisma.exportScheduleExecution_deleteMany ["a1"; "zz"];
     Prisma.exportSchedule_deleteMany ["a1"; "zz"]]
  /\ exists n,
       Prisma.outcome
         (DELETE Sample.allow Sample.acme (Sample.delete "a1,zz")
            Sample.acme_db)
       = Prisma.Returned
           (NextResponse.json
              (NextResponse.Deleted n
                 (string_of_nat n ++ " schedule(s) deleted")))
       /\ n + 1 = 2.
Proof.
  destruct (@DELETE_removes_executions_then_schedules unit
              Sample.allow Sample.acme (Sample.delete "a1,zz")
              Sample.acme_db "a1,zz" eq_refl eq_refl eq_refl)
    as (H1 & _ & _ & _ & _ & _ & _ & _ & n & H2 & _ & H3).
  split; [exact H1 |].
  exists n. split; [exact H2 | exact H3].
Defined.

(** C1, on the code: [DELETE] selects the rows by [id] alone.  Asked by a
    subject of [acme] to delete [g1], a schedule of [globex], it deletes
    that schedule and its execution and reports one deletion. *)
Theorem DELETE_reaches_other_tenants :
  Context.tenantId Sample.acme = "acme"
  /\ map (fun x => (ExportSchedule.id x, ExportSchedule.tenantId x))
       (exportSchedule Sample.globex_db)
     = [("g1", "globex")]
  /\ DELETE Sample.allow Sample.acme (Sample.delete "g1") Sample.globex_db
     = Prisma.mkRun
         (Prisma.Returned
            (NextResponse.json
               (NextResponse.Deleted 1 "1 schedule(s) deleted")))
         (mkDb [] [])
         [Prisma.exportScheduleExecution_deleteMany ["g1"];
          Prisma.exportSchedule_deleteMany ["g1"]].
Proof. repeat split. Qed.

(** C7, on the code: the update that [PATCH] asks for is
    [isActive: { not: true }], the same for every row and not an update
    that the client accepts; the call throws, the handler answers 500 and
    no row changes.  The inactive schedule [g1] of the caller's own tenant
    stays inactive. *)
Theorem PATCH_toggleActive_flips_no_row :
  map (fun x => (ExportSchedule.id x, ExportSchedule.tenantId x,
                 ExportSchedule.isActive x))
    (exportSchedule Sample.globex_db)
  = [("g1", "globex", false)]
  /\ PATCH Sample.allow Sample.globex (Sample.patch ["g1"]) Sample.globex_db
     = Prisma.mkRun
         (Prisma.Returned
            (NextResponse.error "Failed to update export schedules" 500))
         Sample.globex_db
         [Prisma.exportSchedule_updateMany ["g1"] (BoolFieldUpdate.not_ true)].
Proof. repeat split. Qed.

(** Whatever update of [isActive] a call of [updateMany] carries, it is
    the same for all the rows it matches: none negates each row's own
    value. *)
Lemma no_update_toggles (u : BoolFieldUpdate.t) :
  exists b,
    map ExportSchedule.isActive
      (exportSchedule
         (Prisma.store
            (schedule_updateMany ["g1"] u
               (mkDb [Sample.schedule "g1" "globex" b] []))))
    = [b].
Proof.
  destruct u as [v | v]; [exists v | exists false]; reflexivity.
Qed.

(** ** The weekly recurrence *)

Section Weekly.
Import Recurrence.
Local Open Scope Z_scope.

Lemma digit_range (c : ascii) (n : Z) : digit c = Some n -> 0 <= n <= 9.
Proof.
  unfold digit.
  destruct (48 <=? Z.of_nat (nat_of_ascii c)) eqn:L; [| discriminate].
  destruct (Z.of_nat (nat_of_ascii c) <=? 57) eqn:U; [| discriminate].
  simpl. intros [= <-]. apply Z.leb_le in L, U. lia.
Qed.

Lemma parse_time_range (s : string) (timeOfDay : Z) :
  parse_time s = Some timeOfDay -> 0 <= timeOfDay < ms_per_day.
Proof.
  unfold parse_time.
  destruct s as [| h1 [| h2 [| colon [| m1 [| m2 [| ? ?]]]]]];
    try discriminate.
  destruct (digit h1) as [a |] eqn:Da; [| discriminate].
  destruct (digit h2) as [b |] eqn:Db; [| discriminate].
  destruct (digit m1) as [c |] eqn:Dc; [| discriminate].
  destruct (digit m2) as [d |] eqn:Dd; [| discriminate].
  apply digit_range in Da, Db, Dc, Dd. cbv zeta. intros P.
  destruct (Ascii.eqb colon ":"); [| discriminate P].
  destruct (10 * a + b <? 24) eqn:H; [| discriminate P].
  destruct (10 * c + d <? 60) eqn:M; [| discriminate P].
  cbn [andb] in P.
  assert (E := f_equal (fun o => match o with Some z => z | None => 0 end) P).
  cbv beta iota in E. subst timeOfDay. apply Z.ltb_lt in H, M.
  unfold ms_per_minute, ms_per_day. lia.
Qed.

Variables dayOfWeek timeOfDay after : Z.
Hypothesis day_range : 0 <= dayOfWeek <= 6.
Hypothesis time_range : 0 <= timeOfDay < ms_per_day.

Lemma next_weekly_after : after < next_weekly dayOfWeek timeOfDay after.
Proof.
  unfold next_weekly, at_day, dayOfWeek_of, day_of, ms_per_day in *.
  destruct (Z.ltb_spec after
              ((after / 86400000
                + (dayOfWeek - (after / 86400000 + 4) mod 7) mod 7)
               * 86400000 + timeOfDay)); [assumption |].
  Z.div_mod_to_equations. lia.
Qed.

Lemma next_weekly_day :
  dayOfWeek_of (next_weekly dayOfWeek timeOfDay after) = dayOfWeek.
Proof.
  unfold next_weekly, at_day, dayOfWeek_of, day_of, ms_per_day in *.
  destruct (Z.ltb_spec after
              ((after / 86400000
                + (dayOfWeek - (after / 86400000 + 4) mod 7) mod 7)
               * 86400000 + timeOfDay));
    Z.div_mod_to_equations; lia.
Qed.

Lemma next_weekly_time :
  timeOfDay_of (next_weekly dayOfWeek timeOfDay after) = timeOfDay.
Proof.
  unfold next_weekly, at_day, timeOfDay_of, dayOfWeek_of, day_of,
    ms_per_day in *.
  destruct (Z.ltb_spec after
              ((after / 86400000
                + (dayOfWeek - (after / 86400000 + 4) mod 7) mod 7)
               * 86400000 + timeOfDay));
    Z.div_mod_to_equations; lia.
Qed.

Lemma next_weekly_least (u : Z) :
  after < u -> dayOfWeek_of u = dayOfWeek -> timeOfDay_of u = timeOfDay ->
  next_weekly dayOfWeek timeOfDay after <= u.
Proof.
  unfold next_weekly, at_day, timeOfDay_of, dayOfWeek_of, day_of,
    ms_per_day in *.
  intros Hu Hd Ht.
  destruct (Z.ltb_spec after
              ((after / 86400000
                + (dayOfWeek - (after / 86400000 + 4) mod 7) mod 7)
               * 86400000 + timeOfDay));
    Z.div_mod_to_equations; lia.
Qed.

Lemma next_weekly_coincident :
  dayOfWeek_of after = dayOfWeek -> timeOfDay_of after = timeOfDay ->
  next_weekly dayOfWeek timeOfDay after = after + 7 * ms_per_day.
Proof.
  unfold next_weekly, at_day, timeOfDay_of, dayOfWeek_of, day_of,
    ms_per_day in *.
  intros Hd Ht.
  destruct (Z.ltb_spec after
              ((after / 86400000
                + (dayOfWeek - (after / 86400000 + 4) mod 7) mod 7)
               * 86400000 + timeOfDay));
    Z.div_mod_to_equations; lia.
Qed.
End Weekly.

(** C9. For a weekly schedule, with [dayOfWeek] in 0..6 and [time] of the
    form HH:MM, and every timestamp [after], [nextFireTime] is strictly
    after [after], falls on the [dayOfWeek] of the schedule at its [time],
    and is the first such instant; when [after] is itself on [dayOfWeek]
    at [time], the result is a full week later. *)
Theorem nextFireTime_weekly (schedule : ExportSchedule.t)
  (after d timeOfDay : Z) :
  ExportSchedule.frequency schedule = "weekly" ->
  ExportSchedule.dayOfWeek schedule = Some d ->
  (0 <= d <= 6)%Z ->
  Recurrence.parse_time (ExportSchedule.time schedule) = Some timeOfDay ->
  exists t,
    Recurrence.nextFireTime schedule after = Some t
    /\ (after < t)%Z
    /\ Recurrence.dayOfWeek_of t = d
    /\ Recurrence.timeOfDay_of t = timeOfDay
    /\ (forall u, (after < u)%Z -> Recurrence.dayOfWeek_of u = d ->
                  Recurrence.timeOfDay_of u = timeOfDay -> (t <= u)%Z)
    /\ (Recurrence.dayOfWeek_of after = d ->
        Recurrence.timeOfDay_of after = timeOfDay ->
        t = (after + 7 * Recurrence.ms_per_day)%Z).
Proof.
  intros F D R P. pose proof (parse_time_range _ P) as T.
  exists (Recurrence.next_weekly d timeOfDay after). split.
  - unfold Recurrence.nextFireTime, Recurrence.in_range.
    rewrite P, F, D. simpl String.eqb. cbv iota.
    destruct R as [R1 R2]. apply Z.leb_le in R1, R2.
    rewrite R1, R2. reflexivity.
  - split; [now apply next_weekly_after |].
    split; [now apply next_weekly_day |].
    split; [now apply next_weekly_time |].
    split; [intros u; now apply next_weekly_least |].
    now apply next_weekly_coincident.
Qed.

Lemma nextFireTime_weekly_witness :
  exists t,
    Recurrence.nextFireTime Sample.thursdays Sample.a_thursday_at_nine
    = Some t
    /\ t = (Sample.a_thursday_at_nine + 7 * Recurrence.ms_per_day)%Z.
Proof.
  destruct (nextFireTime_weekly Sample.thursdays Sample.a_thursday_at_nine
              (d := 4) (timeOfDay := 32400000)
              eq_refl eq_refl) as (t & H1 & _ & _ & _ & _ & H2).
  - lia.
  - reflexivity.
  - exists t. split; [exact H1 |]. apply H2; reflexivity.
Defined.

(** ** The recurrence engine on sample dates *)

(** A monthly schedule for the 31st fires on the last day of February. *)
Example next_monthly_in_february :
  Recurrence.civil_from_days
    (Recurrence.day_of
       (Recurrence.next_monthly 31 32400000
          (Recurrence.at_day (Recurrence.days_from_civil 2023 2 10) 0)))
  = (2023%Z, 2%Z, 28%Z).
Proof. reflexivity. Qed.

(** A daily schedule at 09:00 fires the same day before 09:00 and the next
    day after 09:00. *)
Example next_daily_around_nine :
  Recurrence.next_daily 32400000 (Sample.a_thursday_at_nine - 1)
  = Sample.a_thursday_at_nine
  /\ Recurrence.next_daily 32400000 (Sample.a_thursday_at_nine + 1)
     = (Sample.a_thursday_at_nine + Recurrence.ms_per_day)%Z.
Proof. split; reflexivity. Qed.

(** ** The listing *)

Lemma insert_desc_perm (s : ExportSchedule.t) (l : list ExportSchedule.t) :
  Permutation (s :: l) (insert_desc s l).
Proof.
  induction l as [| x l IH]; simpl; [reflexivity |].
  destruct (Z.leb _ _); [reflexivity |].
  rewrite perm_swap. now constructor.
Qed.

Lemma orderBy_createdAt_desc_perm (l : list ExportSchedule.t) :
  Permutation l (orderBy_createdAt_desc l).
Proof.
  induction l as [| x l IH]; simpl; [constructor |].
  rewrite <- insert_desc_perm. now constructor.
Qed.

Lemma insert_desc_sorted (s : ExportSchedule.t) (l : list ExportSchedule.t) :
  newest_first l -> newest_first (insert_desc s l).
Proof.
  unfold newest_first.
  induction l as [| x l IH]; simpl; intros H.
  - repeat constructor.
  - apply StronglySorted_inv in H as [Hl Hx].
    destruct (Z.leb_spec (ExportSchedule.createdAt x)
                (ExportSchedule.createdAt s)) as [L | L].
    + constructor; [now constructor |].
      constructor; [exact L |].
      rewrite Forall_forall in *. intros y Hy. specialize (Hx y Hy). lia.
    + constructor; [auto |].
      rewrite Forall_forall in *. intros y Hy.
      apply (Permutation_in _ (Permutation_sym (insert_desc_perm s l))) in Hy.
      destruct Hy as [<- | Hy]; [lia | auto].
Qed.

Lemma orderBy_createdAt_desc_sorted (l : list ExportSchedule.t) :
  newest_first (orderBy_createdAt_desc l).
Proof.
  induction l as [| x l IH]; simpl; [constructor |].
  now apply insert_desc_sorted.
Qed.

Lemma GET_listing {Body : Type} (env : Env) (context : Context.t)
  (request : NextRequest.t Body) (db : Db) :
  rate_allowed env request = true ->
  capable env context = true ->
  GET env context request db =
  Prisma.mkRun
    (Prisma.Returned
       (NextResponse.json
          (NextResponse.Schedules
             (map (fun s => (s, count_executions db s))
                (orderBy_createdAt_desc
                   (filter (of_tenant (Context.tenantId context))
                      (exportSchedule db)))))))
    db [Prisma.exportSchedule_findMany (Context.tenantId context)].
Proof.
  unfold rate_allowed, capable. intros Hr Hc.
  unfold GET. rewrite Hr, Hc. reflexivity.
Qed.

Lemma map_fst_annotated {A B} (f : A -> B) (l : list A) :
  map fst (map (fun x => (x, f x)) l) = l.
Proof. induction l; simpl; congruence. Qed.



(** X2. The schedules that an admitted [GET] lists are ordered by
    [createdAt], newest first. *)
Theorem GET_lists_newest_first {Body : Type} (env : Env)
  (context : Context.t) (request : NextRequest.t Body) (db : Db) :
  rate_allowed env request = true ->
  capable env context = true ->
  exists l,
    Prisma.outcome (GET env context request db)
    = Prisma.Returned (NextResponse.json (NextResponse.Schedules l))
    /\ newest_first (map fst l).
Proof.
  intros Hr Hc. eexists. rewrite (GET_listing env context request db Hr Hc).
  split; [reflexivity |].
  rewrite map_fst_annotated. apply orderBy_createdAt_desc_sorted.
Qed.

Lemma GET_lists_newest_first_witness :
  exists l,
    Prisma.outcome
      (GET Sample.allow Sample.acme (Sample.delete "a1") Sample.acme_db)
    = Prisma.Returned (NextResponse.json (NextResponse.Schedules l))
    /\ newest_first (map fst l).
Proof.
  exact (@GET_lists_newest_first unit Sample.allow Sample.acme
           (Sample.delete "a1") Sample.acme_db eq_refl eq_refl).
Defined.

(** ** What a call can do to the tables *)

Lemma PATCH_run (env : Env) (context : Context.t)
  (request : NextRequest.t PatchInput.t) (db : Db) :
  rate_allowed env request = true ->
  capable env context = true ->
  PATCH env context request db =
  match NextRequest.json request with
  | None =>
      answers (NextResponse.error "Failed to update export schedules" 500) db
  | Some body =>
      match PatchInput.action body, PatchInput.scheduleIds body with
      | Some action, Some ids =>
          if String.eqb action "toggleActive" then
            Prisma.mkRun
              (Prisma.Returned
                 (NextResponse.error "Failed to update export schedules" 500))
              db
              [Prisma.exportSchedule_updateMany ids (BoolFieldUpdate.not_ true)]
          else answers (NextResponse.error "Invalid action" 400) db
      | _, _ => answers (NextResponse.error "Invalid action" 400) db
      end
  end.
Proof.
  unfold rate_allowed, capable. intros Hr Hc.
  unfold PATCH, request_json. rewrite Hr, Hc.
  change (negb true) with false. cbv iota.
  destruct (NextRequest.json request) as [body |]; [| reflexivity].
  unfold Prisma.try_catch. rewrite bind_ret. cbv beta zeta.
  destruct (PatchInput.action body) as [a |],
           (PatchInput.scheduleIds body) as [ids |];
    try reflexivity.
  destruct (String.eqb a "toggleActive"); reflexivity.
Qed.

Lemma GET_leaves_alone (env : Env) (context : Context.t)
  (request : NextRequest.t unit) (db : Db) :
  leaves_alone (CallGET env context request) db.
Proof.
  unfold leaves_alone.
  destruct (admitted (CallGET env context request)) eqn:A.
  - unfold admitted in A. apply andb_true_iff in A as [Hr Hc].
    simpl in Hr, Hc. simpl serve.
    rewrite (GET_listing env context request db Hr Hc). eexists.
    split; [reflexivity |]. split; [simpl; auto | reflexivity].
  - rewrite (denied_run _ db A). eexists.
    split; [reflexivity |]. split; [| reflexivity].
    destruct (call_rate_allowed _); simpl; auto 6.
Qed.

Lemma POST_leaves_alone (env : Env) (context : Context.t)
  (request : NextRequest.t ScheduleInput.t) (db : Db) :
  leaves_alone (CallPOST env context request) db.
Proof.
  unfold leaves_alone.
  destruct (admitted (CallPOST env context request)) eqn:A.
  2:{ rewrite (denied_run _ db A). eexists.
      split; [reflexivity |]. split; [| reflexivity].
      destruct (call_rate_allowed _); simpl; auto 6. }
  unfold admitted in A. apply andb_true_iff in A as [Hr Hc].
  simpl in Hr, Hc.
  destruct (NextRequest.json request) as [body |] eqn:J.
  - destruct (accepted body) eqn:V.
    + destruct (Nat.ltb_spec
                  (count_of_tenant (Context.tenantId context) db) 20)
        as [L | L].
      * simpl serve.
        rewrite (POST_throws env context request db Hr Hc J V L). eexists.
        split; [reflexivity |]. split; [simpl; auto 6 | reflexivity].
      * simpl serve.
        rewrite (POST_over_quota env context request db Hr Hc J V L). eexists.
        split; [reflexivity |]. split; [simpl; auto | reflexivity].
    + simpl serve.
      destruct (POST_rejected env context request db Hr Hc J V)
        as (answer & -> & F).
      exists answer. split; [reflexivity |]. split; [| reflexivity].
      unfold failure_of in F.
      destruct (Nat.eqb (NextResponse.status answer) 429) eqn:E1;
        [discriminate |].
      destruct (Nat.eqb (NextResponse.status answer) 403) eqn:E2;
        [discriminate |].
      destruct (Nat.eqb (NextResponse.status answer) 500) eqn:E3;
        [discriminate |].
      destruct (Nat.eqb (NextResponse.status answer) 400) eqn:E4;
        [| discriminate].
      apply Nat.eqb_eq in E4. rewrite E4. simpl. auto.
  - simpl serve.
    rewrite (POST_unparsed env context request db Hr Hc J). eexists.
    split; [reflexivity |]. split; [simpl; auto 6 | reflexivity].
Qed.

Lemma PATCH_leaves_alone (env : Env) (context : Context.t)
  (request : NextRequest.t PatchInput.t) (db : Db) :
  leaves_alone (CallPATCH env context request) db.
Proof.
  unfold leaves_alone.
  destruct (admitted (CallPATCH env context request)) eqn:A.
  - unfold admitted in A. apply andb_true_iff in A as [Hr Hc].
    simpl in Hr, Hc. simpl serve.
    rewrite (PATCH_run env context request db Hr Hc).
    destruct (NextRequest.json request) as [body |].
    + destruct (PatchInput.action body) as [a |],
               (PatchInput.scheduleIds body) as [ids |];
        try (eexists; split; [reflexivity |];
             split; [simpl; auto | reflexivity]).
      destruct (String.eqb a "toggleActive");
        eexists; (split; [reflexivity |]);
        (split; [simpl; auto 6 | reflexivity]).
    + eexists. split; [reflexivity |]. split; [simpl; auto 6 | reflexivity].
  - rewrite (denied_run _ db A). eexists.
    split; [reflexivity |]. split; [| reflexivity].
    destruct (call_rate_allowed _); simpl; auto 6.
Qed.

Lemma DELETE_cases (env : Env) (context : Context.t)
  (request : NextRequest.t unit) (db : Db) :
  leaves_alone (CallDELETE env context request) db
  \/ deletes_by_id (CallDELETE env context request) db.
Proof.
  destruct (admitted (CallDELETE env context request)) eqn:A.
  2:{ left. unfold leaves_alone. rewrite (denied_run _ db A). eexists.
      split; [reflexivity |]. split; [| reflexivity].
      destruct (call_rate_allowed _); simpl; auto 6. }
  unfold admitted in A. apply andb_true_iff in A as [Hr Hc].
  simpl in Hr, Hc.
  destruct (NextRequest.ids request) as [s |] eqn:I.
  - right. unfold deletes_by_id. simpl serve.
    rewrite (DELETE_run env context request db Hr Hc), I.
    do 3 eexists. split; reflexivity.
  - left. unfold leaves_alone. simpl serve.
    rewrite (DELETE_run env context request db Hr Hc), I. eexists.
    split; [reflexivity |]. split; [simpl; auto | reflexivity].
Qed.

Lemma serve_cases (c : Call) (db : Db) :
  leaves_alone c db \/ deletes_by_id c db.
Proof.
  destruct c as [e k r | e k r | e k r | e k r].
  - left. apply GET_leaves_alone.
  - left. apply POST_leaves_alone.
  - left. apply PATCH_leaves_alone.
  - destruct (DELETE_cases e k r db); auto.
Qed.

(** ** Answers and effects of every call *)



(** ** Invariants of the tables *)

(** The row that lines 127-145 build from an accepted body is checked. *)
Lemma accepted_row_checked (uuid : string) (env : Env) (context : Context.t)
  (body : ScheduleInput.t) :
  accepted body = true -> row_checked (new_schedule uuid env context body).
Proof.
  intros A. apply accepted_true in A as (A1 & A2 & A3).
  unfold missing_required in A1.
  apply orb_false_iff in A1 as (A1 & Ar).
  apply orb_false_iff in A1 as (A1 & Ao).
  apply orb_false_iff in A1 as (An & Af).
  apply negb_false_iff in An, Af, Ao.
  apply truthy_string_Some in An as (n & En & Nn).
  apply truthy_string_Some in Af as (f & Ef & Nf).
  unfold row_checked, new_schedule.
  cbn [ExportSchedule.name ExportSchedule.frequency ExportSchedule.format
       ExportSchedule.recipients ExportSchedule.time
       ExportSchedule.dayOfWeek ExportSchedule.dayOfMonth
       ExportSchedule.filterPresetId].
  rewrite En, Ef. cbn [the_string].
  split; [exact Nn |]. split; [exact Nf |].
  split; [apply includes_In, negb_false_iff, A2 |].
  split.
  { destruct (ScheduleInput.recipients body) as [[| a l] |];
      simpl in *; congruence. }
  split.
  { apply Forall_forall. intros a Ha. apply emailRegex_test_spec.
    destruct (emailRegex_test a) eqn:E; [reflexivity |].
    unfold invalid_recipients in A3.
    assert (X : existsb (fun email => negb (emailRegex_test email))
                  (the_array (ScheduleInput.recipients body)) = true).
    { apply existsb_exists. exists a. now rewrite E. }
    congruence. }
  split.
  { unfold string_or. destruct (ScheduleInput.time body) as [t |];
      [| discriminate].
    destruct (String.eqb_spec t ""); [discriminate | assumption]. }
  split.
  { unfold number_or_null.
    destruct (ScheduleInput.dayOfWeek body) as [d |]; [| discriminate].
    destruct (Z.eqb_spec d 0); congruence. }
  split.
  { unfold number_or_null.
    destruct (ScheduleInput.dayOfMonth body) as [d |]; [| discriminate].
    destruct (Z.eqb_spec d 0); congruence. }
  unfold string_or_null.
  destruct (truthy_string (ScheduleInput.filterPresetId body)) eqn:T;
    [| discriminate].
  apply truthy_string_Some in T as (p & -> & Np). congruence.
Qed.




Lemma filter_filter {A} (p q : A -> bool) (l : list A) :
  filter p (filter q l) = filter (fun x => q x && p x) l.
Proof.
  induction l as [| x l IH]; simpl; [reflexivity |].
  destruct (q x); simpl; [destruct (p x) |]; congruence.
Qed.

(** X6. The route never creates or changes an execution: after any
    sequence of calls the executions are a selection of those stored
    before, in their order. *)
Theorem executions_are_only_deleted (calls : list Call) (db : Db) :
  exists keep,
    exportScheduleExecution (serve_all calls db)
    = filter keep (exportScheduleExecution db).
Proof.
  revert db. induction calls as [| c calls IH]; simpl; intros db.
  - exists (fun _ => true). clear. induction (exportScheduleExecution db);
      simpl; congruence.
  - destruct (IH (Prisma.store (serve c db))) as (keep & ->).
    destruct (serve_cases c db) as [L | D].
    + destruct L as (_ & _ & _ & ->). now exists keep.
    + destruct D as (ids & _ & _ & _ & ->). simpl.
      eexists. apply filter_filter.
Qed.

Lemma no_dangling_serve (c : Call) (db : Db) :
  no_dangling db -> no_dangling (Prisma.store (serve c db)).
Proof.
  intros N.
  destruct (serve_cases c db) as [L | D].
  - destruct L as (_ & _ & _ & ->). exact N.
  - destruct D as (ids & _ & _ & _ & ->).
    intros x Hx. simpl in Hx. apply filter_In in Hx as [Hx Hn].
    destruct (N x Hx) as (s & Hs & E).
    exists s. split; [| exact E]. simpl. apply filter_In.
    split; [exact Hs |]. now rewrite E.
Qed.

(** X7. Referential integrity is an invariant of the route: when every
    execution belongs to a stored schedule, the same holds after any
    sequence of calls. *)
Theorem no_dangling_is_invariant (calls : list Call) (db : Db) :
  no_dangling db -> no_dangling (serve_all calls db).
Proof.
  revert db. induction calls as [| c calls IH]; simpl; intros db N;
    [exact N |].
  apply IH, no_dangling_serve, N.
Qed.

Lemma no_dangling_is_invariant_witness :
  no_dangling
    (serve_all
       [CallDELETE Sample.allow Sample.globex (Sample.delete "a1");
        CallPOST Sample.allow Sample.acme
          (Sample.post (Sample.report "daily" Sample.team))]
       Sample.acme_db).
Proof.
  apply no_dangling_is_invariant.
  intros e He. simpl in He.
  destruct He as [<- | [<- | [<- | []]]]; simpl; eauto.
Defined.

(** ** Calls in sequence *)

(** X9. After an admitted [DELETE] with an [ids] parameter, no admitted
    [GET], of whichever tenant, lists a schedule whose id is in the
    list. *)
Theorem deleted_schedules_are_not_listed {Body Body' : Type}
  (env : Env) (context : Context.t) (request : NextRequest.t Body)
  (db : Db) (s : string)
  (env' : Env) (context' : Context.t) (request' : NextRequest.t Body') :
  rate_allowed env request = true ->
  capable env context = true ->
  NextRequest.ids request = Some s ->
  rate_allowed env' request' = true ->
  capable env' context' = true ->
  exists l,
    Prisma.outcome
      (GET env' context' request'
         (Prisma.store (DELETE env context request db)))
    = Prisma.Returned (NextResponse.json (NextResponse.Schedules l))
    /\ forall x, In x (map fst l) -> ~ In (ExportSchedule.id x) (split "," s).
Proof.
  intros Hr Hc I Hr' Hc'.
  rewrite (DELETE_run env context request db Hr Hc), I.
  cbv zeta. simpl Prisma.store.
  rewrite (GET_listing env' context' request' _ Hr' Hc').
  eexists. split; [reflexivity |].
  intros x H. rewrite map_fst_annotated in H.
  apply (Permutation_in _
           (Permutation_sym (orderBy_createdAt_desc_perm _))) in H.
  apply filter_In in H as [H _]. simpl in H.
  apply filter_In in H as [_ H]. now apply not_id_in.
Qed.

Lemma deleted_schedules_are_not_listed_witness :
  exists l,
    Prisma.outcome
      (GET Sample.allow Sample.acme (Sample.delete "a1")
         (Prisma.store
            (DELETE Sample.allow Sample.acme (Sample.delete "a1,a7")
               Sample.acme_db)))
    = Prisma.Returned (NextResponse.json (NextResponse.Schedules l))
    /\ forall x, In x (map fst l) -> ~ In (ExportSchedule.id x) ["a1"; "a7"].
Proof.
  exact (@deleted_schedules_are_not_listed unit unit
           Sample.allow Sample.acme (Sample.delete "a1,a7") Sample.acme_db
           "a1,a7" Sample.allow Sample.acme (Sample.delete "a1")
           eq_refl eq_refl eq_refl eq_refl eq_refl).
Defined.

Lemma filter_negb_idempotent {A} (p : A -> bool) (l : list A) :
  filter (fun x => negb (p x)) (filter (fun x => negb (p x)) l)
  = filter (fun x => negb (p x)) l
  /\ filter p (filter (fun x => negb (p x)) l) = [].
Proof.
  induction l as [| x l [IH1 IH2]]; simpl; [auto |].
  destruct (p x) eqn:E; simpl; [auto |].
  rewrite E. simpl. split; congruence.
Qed.

(** X10. An admitted [DELETE] is idempotent: repeated on the tables it
    has left, it answers 200 with [deletedCount] 0 and changes nothing. *)
Theorem DELETE_twice {Body : Type} (env : Env) (context : Context.t)
  (request : NextRequest.t Body) (db : Db) (s : string) :
  rate_allowed env request = true ->
  capable env context = true ->
  NextRequest.ids request = Some s ->
  let db' := Prisma.store (DELETE env context request db) in
  Prisma.outcome (DELETE env context request db')
  = Prisma.Returned
      (NextResponse.json (NextResponse.Deleted 0 "0 schedule(s) deleted"))
  /\ Prisma.store (DELETE env context request db') = db'.
Proof.
  intros Hr Hc I db'. subst db'.
  rewrite !(DELETE_run env context request _ Hr Hc), I.
  cbv zeta. simpl Prisma.store. simpl Prisma.outcome.
  simpl exportSchedule. simpl exportScheduleExecution.
  destruct (filter_negb_idempotent
              (fun x => id_in (split "," s) (ExportSchedule.id x))
              (exportSchedule db)) as [E1 E2].
  destruct (filter_negb_idempotent
              (fun e => id_in (split "," s)
                          (ExportScheduleExecution.scheduleId e))
              (exportScheduleExecution db)) as [E3 _].
  rewrite E1, E2, E3. split; reflexivity.
Qed.

Lemma DELETE_twice_witness :
  Prisma.store
    (DELETE Sample.allow Sample.acme (Sample.delete "a1")
       (Prisma.store
          (DELETE Sample.allow Sample.acme (Sample.delete "a1")
             Sample.acme_db)))
  = Prisma.store
      (DELETE Sample.allow Sample.acme (Sample.delete "a1") Sample.acme_db).
Proof.
  exact (proj2 (@DELETE_twice unit Sample.allow Sample.acme
                  (Sample.delete "a1") Sample.acme_db "a1"
                  eq_refl eq_refl eq_refl)).
Defined.

(** ** The [ids] parameter of [DELETE] *)

(** X11. An admitted [DELETE] answers 400 exactly when the request has no
    [ids] parameter, and then makes no query; with an [ids] parameter,
    were it the empty string, it answers 200. *)
Theorem DELETE_requires_the_ids_parameter {Body : Type}
  (env : Env) (context : Context.t) (request : NextRequest.t Body)
  (db : Db) :
  rate_allowed env request = true ->
  capable env context = true ->
  exists answer,
    Prisma.outcome (DELETE env context request db) = Prisma.Returned answer
    /\ (NextRequest.ids request = None ->
        answer = NextResponse.error "No schedule IDs provided" 400
        /\ Prisma.journal (DELETE env context request db) = []
        /\ Prisma.store (DELETE env context request db) = db)
    /\ (NextRequest.ids request <> None -> NextResponse.status answer = 200).
Proof.
  intros Hr Hc. rewrite (DELETE_run env context request db Hr Hc).
  destruct (NextRequest.ids request) as [s |].
  - eexists. split; [reflexivity |]. split; [discriminate | reflexivity].
  - eexists. split; [reflexivity |]. split; [auto | congruence].
Qed.

Lemma DELETE_requires_the_ids_parameter_witness :
  (exists answer,
     Prisma.outcome
       (DELETE Sample.allow Sample.acme
          (NextRequest.mk (Body := unit) None None None) Sample.acme_db)
     = Prisma.Returned answer
     /\ NextResponse.status answer = 400)
  /\ (exists answer,
        Prisma.outcome
          (DELETE Sample.allow Sample.acme (Sample.delete "") Sample.acme_db)
        = Prisma.Returned answer
        /\ NextResponse.status answer = 200).
Proof.
  split.
  - destruct (@DELETE_requires_the_ids_parameter unit
                Sample.allow Sample.acme
                (NextRequest.mk (Body := unit) None None None)
                Sample.acme_db
                eq_refl eq_refl) as (answer & H1 & H2 & _).
    exists answer. split; [exact H1 |].
    destruct (H2 eq_refl) as (-> & _). reflexivity.
  - destruct (@DELETE_requires_the_ids_parameter unit
                Sample.allow Sample.acme (Sample.delete "") Sample.acme_db
                eq_refl eq_refl) as (answer & H1 & _ & H3).
    exists answer. split; [exact H1 |]. apply H3. discriminate.
Defined.

Lemma split_comma_free (x : string) :
  comma_free x = true -> split "," x = [x].
Proof.
  unfold comma_free.
  induction x as [| c x IH]; simpl; intros H; [reflexivity |].
  apply andb_true_iff in H as [Hc Hx]. apply negb_true_iff in Hc.
  rewrite Hc, (IH Hx). reflexivity.
Qed.

Lemma split_piece (x rest : string) :
  comma_free x = true ->
  split "," (x ++ String "," rest) = x :: split "," rest.
Proof.
  unfold comma_free.
  induction x as [| c x IH]; simpl; intros H; [reflexivity |].
  apply andb_true_iff in H as [Hc Hx]. apply negb_true_iff in Hc.
  rewrite Hc, (IH Hx). reflexivity.
Qed.

Lemma split_concat (ids : list string) :
  ids <> [] ->
  Forall (fun i => comma_free i = true) ids ->
  split "," (String.concat "," ids) = ids.
Proof.
  induction ids as [| x [| y ids] IH]; intros N F; [congruence | |].
  - simpl. apply split_comma_free. now inversion F.
  - inversion F as [| ? ? Fx Fr]; subst.
    change (String.concat "," (x :: y :: ids))
      with (x ++ String "," (String.concat "," (y :: ids)))%string.
    rewrite (@split_piece x _ Fx), IH; [reflexivity | discriminate | exact Fr].
Qed.

(** X12. The [ids] parameter is decoded as it is encoded: for a non-empty
    list of ids without a comma, joined by commas, an admitted [DELETE]
    asks for the deletion of just that list and removes exactly the
    schedules whose id is in it. *)
Theorem DELETE_decodes_the_ids {Body : Type}
  (env : Env) (context : Context.t) (request : NextRequest.t Body)
  (db : Db) (ids : list string) :
  rate_allowed env request = true ->
  capable env context = true ->
  ids <> [] ->
  Forall (fun i => comma_free i = true) ids ->
  NextRequest.ids request = Some (String.concat "," ids) ->
  Prisma.journal (DELETE env context request db)
  = [Prisma.exportScheduleExecution_deleteMany ids;
     Prisma.exportSchedule_deleteMany ids]
  /\ forall x, In x (exportSchedule
                       (Prisma.store (DELETE env context request db))) <->
               In x (exportSchedule db) /\ ~ In (ExportSchedule.id x) ids.
Proof.
  intros Hr Hc N F I.
  rewrite (DELETE_run env context request db Hr Hc), I.
  cbv zeta. rewrite (split_concat N F). split; [reflexivity |].
  intros x. simpl. rewrite filter_In, not_id_in. reflexivity.
Qed.

Lemma DELETE_decodes_the_ids_witness :
  Prisma.journal
    (DELETE Sample.allow Sample.acme (Sample.delete "a1,a2") Sample.acme_db)
  = [Prisma.exportScheduleExecution_deleteMany ["a1"; "a2"];
     Prisma.exportSchedule_deleteMany ["a1"; "a2"]].
Proof.
  refine (proj1 (@DELETE_decodes_the_ids unit Sample.allow Sample.acme
                   (Sample.delete "a1,a2") Sample.acme_db ["a1"; "a2"]
                   eq_refl eq_refl _ _ eq_refl)).
  - discriminate.
  - repeat constructor.
Defined.

(** ** The actions of [PATCH] *)

(** X13. An admitted [PATCH] whose action is not [toggleActive], or whose
    [scheduleIds] is missing, is answered 400 [Invalid action] without a
    query and without a write. *)
Theorem PATCH_refuses_other_actions (env : Env) (context : Context.t)
  (request : NextRequest.t PatchInput.t) (body : PatchInput.t) (db : Db) :
  rate_allowed env request = true ->
  capable env context = true ->
  NextRequest.json request = Some body ->
  PatchInput.action body <> Some "toggleActive"
  \/ PatchInput.scheduleIds body = None ->
  PATCH env context request db
  = answers (NextResponse.error "Invalid action" 400) db.
Proof.
  intros Hr Hc J B. rewrite (PATCH_run env context request db Hr Hc), J.
  destruct (PatchInput.action body) as [a |];
    destruct (PatchInput.scheduleIds body) as [ids |]; try reflexivity.
  destruct (String.eqb_spec a "toggleActive") as [-> | _]; [| reflexivity].
  destruct B as [B | B]; [now elim B | discriminate].
Qed.

Lemma PATCH_refuses_other_actions_witness :
  PATCH Sample.allow Sample.acme
    (NextRequest.mk None
       (Some (PatchInput.mk (Some "activate") (Some ["a1"]))) None)
    Sample.acme_db
  = answers (NextResponse.error "Invalid action" 400) Sample.acme_db.
Proof.
  apply (PATCH_refuses_other_actions Sample.allow Sample.acme
           (NextRequest.mk None
              (Some (PatchInput.mk (Some "activate") (Some ["a1"]))) None)
           Sample.acme_db eq_refl eq_refl eq_refl).
  left. discriminate.
Defined.

(** ** Consequences of the address check *)

Lemma count_char_app (c : ascii) (s t : string) :
  count_char c (s ++ t) = count_char c s + count_char c t.
Proof. induction s; simpl; [reflexivity | rewrite IHs; lia]. Qed.

Lemma all_chars_app (p : ascii -> bool) (s t : string) :
  all_chars p (s ++ t) = all_chars p s && all_chars p t.
Proof.
  induction s; simpl; [reflexivity | rewrite IHs; apply andb_assoc].
Qed.

Lemma part_no_at (s : string) :
  all_chars not_space_at s = true -> count_char "@" s = 0.
Proof.
  induction s as [| c s IH]; simpl; [reflexivity |].
  intros H. apply andb_true_iff in H as [Hc Hs].
  unfold not_space_at in Hc. apply andb_true_iff in Hc as [_ Hc].
  apply negb_true_iff in Hc. rewrite Hc, (IH Hs). reflexivity.
Qed.

Lemma part_no_space (s : string) :
  all_chars not_space_at s = true ->
  all_chars (fun c => negb (is_space c)) s = true.
Proof.
  induction s as [| c s IH]; simpl; [reflexivity |].
  intros H. apply andb_true_iff in H as [Hc Hs].
  unfold not_space_at in Hc. apply andb_true_iff in Hc as [Hc _].
  rewrite Hc, (IH Hs). reflexivity.
Qed.

Lemma part_length (s : string) : s <> "" -> 1 <= String.length s.
Proof. destruct s; simpl; [congruence | lia]. Qed.

Lemma length_app_string (s t : string) :
  String.length (s ++ t) = String.length s + String.length t.
Proof. induction s; simpl; congruence. Qed.

(** X14. An address that [emailRegex] accepts holds exactly one [@], no
    white space, and at least five characters. *)
Theorem accepted_address_shape (s : string) :
  emailRegex_test s = true ->
  count_char "@" s = 1
  /\ all_chars (fun c => negb (is_space c)) s = true
  /\ 5 <= String.length s.
Proof.
  intros H. apply emailRegex_test_spec in H
    as (l & d & t & -> & (Nl & Al) & (Nd & Ad) & (Nt & At)).
  repeat split.
  - rewrite !count_char_app, (part_no_at _ Al), (part_no_at _ Ad),
      (part_no_at _ At). reflexivity.
  - rewrite !all_chars_app, (part_no_space _ Al), (part_no_space _ Ad),
      (part_no_space _ At). reflexivity.
  - rewrite !length_app_string.
    pose proof (part_length Nl). pose proof (part_length Nd).
    pose proof (part_length Nt). simpl. lia.
Qed.

Lemma accepted_address_shape_witness :
  count_char "@" "cfo@example.co.uk" = 1.
Proof.
  exact (proj1 (accepted_address_shape "cfo@example.co.uk" eq_refl)).
Defined.

(** ** The cells of the CSV export *)

Section Csv.
Import UsersExport.

Lemma cell_value (cell : string) : string_or (Some cell) "" = cell.
Proof.
  unfold string_or. destruct (String.eqb_spec cell ""); congruence.
Qed.

Lemma append_String_assoc (x r : string) (c : ascii) :
  ((x ++ String c "") ++ r)%string = (x ++ String c r)%string.
Proof. induction x; simpl; congruence. Qed.

Lemma cell_end_head (c : ascii) (r : string) :
  cell_end (String c r) -> c = ","%char.
Proof. intros [E | (r' & E)]; congruence. Qed.

Lemma plain_prefix (a : string) :
  forall b r1 r2,
    includes_char "," a = false -> includes_char "," b = false ->
    cell_end r1 -> cell_end r2 ->
    (a ++ r1)%string = (b ++ r2)%string -> a = b /\ r1 = r2.
Proof.
  induction a as [| c a IH]; intros [| c' b] r1 r2 Ha Hb E1 E2 H;
    simpl in *.
  - auto.
  - subst r1. apply cell_end_head in E1. subst c'.
    rewrite Ascii.eqb_refl in Hb. discriminate.
  - subst r2. apply cell_end_head in E2. subst c.
    rewrite Ascii.eqb_refl in Ha. discriminate.
  - injection H as -> H.
    apply orb_false_iff in Ha as [_ Ha]. apply orb_false_iff in Hb as [_ Hb].
    destruct (IH b r1 r2 Ha Hb E1 E2 H) as [-> ->]. auto.
Qed.

Lemma dquote_not_comma : dquote <> ","%char.
Proof. discriminate. Qed.

Lemma quoted_prefix (a : string) :
  forall b r1 r2,
    cell_end r1 -> cell_end r2 ->
    (double_quotes a ++ String dquote r1)%string
    = (double_quotes b ++ String dquote r2)%string ->
    a = b /\ r1 = r2.
Proof.
  induction a as [| c a IH]; intros [| c' b] r1 r2 E1 E2 H; simpl in H.
  - injection H as ->. auto.
  - destruct (Ascii.eqb_spec c' dquote) as [-> | N]; simpl in H.
    + injection H as ->. apply cell_end_head in E1.
      now elim dquote_not_comma.
    + injection H as <-. now elim N.
  - destruct (Ascii.eqb_spec c dquote) as [-> | N]; simpl in H.
    + injection H as <-. apply cell_end_head in E2.
      now elim dquote_not_comma.
    + injection H as ->. now elim N.
  - destruct (Ascii.eqb_spec c dquote) as [-> | N],
             (Ascii.eqb_spec c' dquote) as [-> | N']; simpl in H.
    + injection H as H. destruct (IH b r1 r2 E1 E2 H) as [-> ->]. auto.
    + injection H as <-. now elim N'.
    + injection H as ->. now elim N.
    + injection H as -> H. destruct (IH b r1 r2 E1 E2 H) as [-> ->]. auto.
Qed.

Lemma quote_meets_plain (x b r : string) :
  includes_char dquote b = false -> cell_end r ->
  String dquote x = (b ++ r)%string -> False.
Proof.
  intros Hb E H. destruct b as [| c b]; simpl in *.
  - subst r. apply cell_end_head in E. now elim dquote_not_comma.
  - injection H as <- _. rewrite Ascii.eqb_refl in Hb. discriminate.
Qed.

Lemma cell_prefix (a b r1 r2 : string) :
  cell_end r1 -> cell_end r2 ->
  (csv_cell a ++ r1)%string = (csv_cell b ++ r2)%string ->
  a = b /\ r1 = r2.
Proof.
  unfold csv_cell. rewrite !cell_value. cbv zeta. intros E1 E2.
  destruct (includes_char "," a || includes_char dquote a) eqn:Qa;
    destruct (includes_char "," b || includes_char dquote b) eqn:Qb;
    simpl; rewrite ?append_String_assoc; intros H.
  - injection H as H. now apply quoted_prefix.
  - apply orb_false_iff in Qb as [_ Qb].
    elim (@quote_meets_plain _ _ _ Qb E2 H).
  - apply orb_false_iff in Qa as [_ Qa]. symmetry in H.
    elim (@quote_meets_plain _ _ _ Qa E1 H).
  - apply orb_false_iff in Qa as [Qa _]. apply orb_false_iff in Qb as [Qb _].
    now apply plain_prefix.
Qed.

Lemma csv_row_cons (a : string) (l : list string) :
  csv_row (a :: l)
  = (csv_cell a
     ++ match l with [] => "" | _ :: _ => String "," (csv_row l) end)%string.
Proof.
  unfold csv_row. destruct l; simpl; [| reflexivity].
  symmetry. apply RegexFacts.append_empty_r.
Qed.

Lemma row_rest_end (l : list string) :
  cell_end match l with [] => "" | _ :: _ => String "," (csv_row l) end.
Proof. destruct l; [now left | right; eauto]. Qed.

End Csv.

(** X15. The quoting of a cell loses nothing: two different cells never
    have the same CSV text. *)
Theorem csv_cell_is_injective (a b : string) :
  a <> b -> UsersExport.csv_cell a <> UsersExport.csv_cell b.
Proof.
  intros N H. apply N.
  apply (@cell_prefix a b "" ""); try (now left).
  now rewrite !RegexFacts.append_empty_r.
Qed.

Lemma csv_cell_is_injective_witness :
  UsersExport.csv_cell "Doe, Jane" <> UsersExport.csv_cell "Doe; Jane".
Proof.
  apply (@csv_cell_is_injective "Doe, Jane" "Doe; Jane"). discriminate.
Defined.

Lemma csv_row_decodes (row1 : list string) :
  forall row2,
    length row1 = length row2 ->
    UsersExport.csv_row row1 = UsersExport.csv_row row2 ->
    row1 = row2.
Proof.
  induction row1 as [| a l IH]; intros [| b l'] L H; simpl in L;
    try discriminate; [reflexivity |].
  rewrite !csv_row_cons in H.
  apply cell_prefix in H as [-> H]; try apply row_rest_end.
  f_equal. injection L as L.
  destruct l, l'; simpl in L; try discriminate; [reflexivity |].
  injection H as H. now apply IH.
Qed.

(** X16. A line of the export determines its cells: two different rows of
    the same number of cells never have the same CSV text, whatever commas
    and double quotes the cells hold. *)
Theorem csv_row_is_injective (row1 row2 : list string) :
  length row1 = length row2 ->
  row1 <> row2 ->
  UsersExport.csv_row row1 <> UsersExport.csv_row row2.
Proof.
  intros L N H. apply N. now apply csv_row_decodes.
Qed.

Lemma csv_row_is_injective_witness :
  UsersExport.csv_row ["7"; "Doe, Jane"; "jane@example.com"]
  <> UsersExport.csv_row ["7"; "Doe"; " Jane,jane@example.com"].
Proof.
  apply (@csv_row_is_injective
           ["7"; "Doe, Jane"; "jane@example.com"]
           ["7"; "Doe"; " Jane,jane@example.com"]).
  - reflexivity.
  - discriminate.
Defined.

(** ** The lines of the CSV export *)

Section CsvLines.
Import UsersExport.

Lemma count_lf_comma (s : string) :
  count_char line_feed (String "," s) = count_char line_feed s.
Proof. reflexivity. Qed.

Lemma count_lf_lf (s : string) :
  count_char line_feed (String line_feed s) = S (count_char line_feed s).
Proof. reflexivity. Qed.

Lemma count_lf_double_quotes (v : string) :
  count_char line_feed (double_quotes v) = count_char line_feed v.
Proof.
  induction v as [| c v IH]; simpl; [reflexivity |].
  destruct (Ascii.eqb_spec c dquote) as [-> | _]; simpl; rewrite IH;
    reflexivity.
Qed.

Lemma count_lf_cell (cell : string) :
  count_char line_feed (csv_cell cell) = count_char line_feed cell.
Proof.
  unfold csv_cell. rewrite cell_value. cbv zeta.
  destruct (_ || _); [| reflexivity].
  simpl. rewrite count_char_app, count_lf_double_quotes. simpl. lia.
Qed.

Lemma count_lf_row (row : list string) :
  count_char line_feed (csv_row row) = list_sum (map (count_char line_feed) row).
Proof.
  unfold csv_row.
  induction row as [| a [| b row] IH].
  - reflexivity.
  - simpl. rewrite count_lf_cell. lia.
  - change (String.concat "," (map csv_cell (a :: b :: row)))
      with (csv_cell a
            ++ String "," (String.concat "," (map csv_cell (b :: row))))%string.
    rewrite count_char_app, count_lf_cell, count_lf_comma, IH.
    reflexivity.
Qed.

Lemma count_lf_lines (first : string) (lines : list string) :
  count_char line_feed (String.concat newline (first :: lines))
  = length lines + list_sum (map (count_char line_feed) (first :: lines)).
Proof.
  revert first. induction lines as [| l lines IH]; intros first.
  - simpl. lia.
  - change (String.concat newline (first :: l :: lines))
      with (first ++ String line_feed (String.concat newline (l :: lines)))%string.
    rewrite count_char_app, count_lf_lf, IH. simpl. lia.
Qed.

End CsvLines.

(** X17. The export does not quote line feeds: the number of line feeds of
    [csvContent] is the number of users plus the number of line feeds in
    their cells, so that the file has one line per user after the header
    only when no cell holds a line feed. *)
Theorem csvContent_line_feeds (toLocaleDateString : Z -> string)
  (users : list UsersExport.User) :
  count_char UsersExport.line_feed
    (UsersExport.csvContent toLocaleDateString users)
  = length users
    + list_sum
        (map (fun user =>
                list_sum
                  (map (count_char UsersExport.line_feed)
                     (UsersExport.user_row toLocaleDateString user)))
             users).
Proof.
  unfold UsersExport.csvContent. rewrite count_lf_lines.
  rewrite !length_map. f_equal.
  change (map (count_char UsersExport.line_feed)
            (String.concat "," UsersExport.headers :: ?l))
    with (0 :: map (count_char UsersExport.line_feed) l).
  simpl list_sum. rewrite !map_map. f_equal.
  apply map_ext. intros user. apply count_lf_row.
Qed.

(** ** The checks of [POST] *)




(** X19. An admitted [POST] with a body that passes the checks, for a
    tenant that has 20 schedules or more, is answered 400 with the message
    of the quota after one count of that tenant's schedules, and changes
    no table. *)
Theorem POST_refuses_at_the_quota (env : Env) (context : Context.t)
  (request : NextRequest.t ScheduleInput.t) (body : ScheduleInput.t)
  (db : Db) :
  rate_allowed env request = true ->
  capable env context = true ->
  NextRequest.json request = Some body ->
  accepted body = true ->
  20 <= length (filter
                  (fun s => String.eqb (ExportSchedule.tenantId s)
                                       (Context.tenantId context))
                  (exportSchedule db)) ->
  POST env context request db
  = Prisma.mkRun
      (Prisma.Returned
         (NextResponse.error
            "Maximum number of export schedules (20) reached for this tenant"
            400))
      db [Prisma.exportSchedule_count (Context.tenantId context)]
  /\ failure_of
       (NextResponse.error
          "Maximum number of export schedules (20) reached for this tenant"
          400)
     = Some QuotaExceeded.
Proof.
  intros Hr Hc J A L. split; [| reflexivity].
  apply (POST_over_quota env context request db Hr Hc J A L).
Qed.

Lemma POST_refuses_at_the_quota_witness :
  Prisma.outcome
    (POST Sample.allow Sample.acme
       (Sample.post (Sample.report "daily" Sample.team))
       (Sample.acme_with 20))
  = Prisma.Returned quota_exceeded.
Proof.
  destruct (POST_refuses_at_the_quota Sample.allow Sample.acme
              (Sample.post (Sample.report "daily" Sample.team))
              (Sample.acme_with 20) eq_refl eq_refl eq_refl eq_refl)
    as [H _].
  - vm_compute. apply le_n.
  - rewrite H. reflexivity.
Defined.
